(** * The daily metric dashboard (dashboard.py)

    A shallow embedding of the dashboard's loader, its three metric
    calculators, the file watcher's handler and the page that [main]
    renders, followed by the properties of the specification that were
    checked against them.

    Conventions of the embedding.
    - A function that can raise returns a [result]; a function that writes
      to the page, to the table it is handed or to the loader's cache is a
      state transformer (the monad [M]).  State written before an exception
      stays written, as in the source.
    - Numbers are the code's: a Python integer is unbounded, a 64-bit
      integer of the numeric library wraps around, and a float is a
      binary64 float with its NaN and its infinities.
    - What the data library does with a whole column is taken as given (the
      class [Library]): how it reads the Date column as timestamps, which
      may raise; in which order it adds a column of floats; how it rounds a
      float to two decimals and how it prints one.
    - Only subclasses of [Exception] are modelled, which is what the
      source's handlers catch. *)

From Stdlib Require Import ZArith Floats Lia Ascii String DecimalString.
From stdpp Require Import base gmap strings list fin_maps.

Local Open Scope Z_scope.
Local Open Scope string_scope.

(** ** Exceptions and the state-and-exception monad

    An exception carries a description of its cause; the text of the
    message that Python or a library composes is not modelled. *)

Inductive exn : Type :=
| KeyError (key : string)
| TypeError (what : string)
| ValueError (what : string)
| OverflowError (what : string)
| FileNotFoundError (path : string)
| OtherError (what : string).

Inductive result (A : Type) : Type :=
| Ok (a : A)
| Raise (e : exn).
Arguments Ok {A} a.
Arguments Raise {A} e.

Definition M (St A : Type) : Type := St -> result A * St.

Definition ret {St A} (a : A) : M St A := fun s => (Ok a, s).

Definition raise {St A} (e : exn) : M St A := fun s => (Raise e, s).

Definition bind {St A B} (m : M St A) (k : A -> M St B) : M St B :=
  fun s => match m s with
           | (Ok a, s') => k a s'
           | (Raise e, s') => (Raise e, s')
           end.

(** [try: body / except Exception as e: handler e]. *)
Definition try_except {St A} (body : M St A) (handler : exn -> M St A) : M St A :=
  fun s => match body s with
           | (Ok a, s') => (Ok a, s')
           | (Raise e, s') => handler e s'
           end.

Definition lift {St A} (r : result A) : M St A := fun s => (r, s).

Definition modify {St} (f : St -> St) : M St unit := fun s => (Ok tt, f s).

Notation "x <- c ;; k" := (bind c (fun x => k))
  (at level 100, c at next level, right associativity).
Notation "c ;;; k" := (bind c (fun _ => k))
  (at level 100, right associativity).

(** ** Python scalars
    The values a cell of a data column holds and a calculator returns: a
    Python integer, a 64-bit integer of the numeric library (what the sum
    of a column of integers is), a float, and text.  A missing value is
    the float NaN. *)

Inductive pyobj : Type :=
| OInt (z : Z)
| OInt64 (z : Z)
| OFloat (f : float)
| OStr (s : string).

Definition ONaN : pyobj := OFloat nan.

(** Text of an integer: [str(z)]. *)
Definition decimal (z : Z) : string := NilZero.string_of_int (Z.to_int z).

(** Digits, least significant first, with a comma after every third one
    that has more digits behind it. *)
Fixpoint group_rev (l : list ascii) : list ascii :=
  match l with
  | a :: b :: c :: rest =>
      match rest with
      | [] => l
      | _ :: _ => a :: b :: c :: ","%char :: group_rev rest
      end
  | _ => l
  end.

(** [format(z, ',')] of an integer. *)
Definition group_thousands (z : Z) : string :=
  let digits := list_ascii_of_string (decimal (Z.abs z)) in
  let body := string_of_list_ascii (rev (group_rev (rev digits))) in
  if (z <? 0)%Z then "-" ++ body else body.

(** The text with its commas taken out. *)
Fixpoint strip_commas (s : string) : string :=
  match s with
  | EmptyString => EmptyString
  | String c s' =>
      if Ascii.eqb c ","%char then strip_commas s' else String c (strip_commas s')
  end.

(** [s.endswith(suffix)]. *)
Fixpoint endswith (s suffix : string) : bool :=
  if String.eqb s suffix then true
  else match s with
       | EmptyString => false
       | String _ s' => endswith s' suffix
       end.

(** *** Arithmetic *)

(** The 64-bit integer that an integer wraps around to. *)
Definition wrap64 (z : Z) : Z := (z + 2 ^ 63) mod 2 ^ 64 - 2 ^ 63.

Definition in_int64 (z : Z) : bool := ((- 2 ^ 63 <=? z) && (z <? 2 ^ 63))%Z.

(** The float nearest to an integer (ties to even), an infinity when the
    integer is beyond the floats. *)
Definition to_float (z : Z) : float := SF2Prim (binary_normalize prec emax z 0 false).

(** [float(z)] of a Python integer. *)
Definition float_of_int (z : Z) : result float :=
  let f := to_float z in
  if is_infinity f
  then Raise (OverflowError "int too large to convert to float")
  else Ok f.

(** How a float compares with a Python integer: as the numbers they are,
    the integer not being rounded; nothing for NaN. *)
Definition float_cmp_int (f : float) (z : Z) : option comparison :=
  match Prim2SF f with
  | S754_nan => None
  | S754_infinity negative => Some (if negative then Lt else Gt)
  | S754_zero _ => Some (0 ?= z)%Z
  | S754_finite negative m e =>
      let v := if negative then Z.neg m else Z.pos m in
      Some (if (0 <=? e)%Z then (v * 2 ^ e ?= z)%Z else (v ?= z * 2 ^ (- e))%Z)
  end.

(** [a + b] and [a - b] on numbers.  Two Python integers give a Python
    integer; a 64-bit integer with an integer gives a 64-bit integer, which
    wraps around, a Python integer beyond 64 bits being refused; with a
    float on either side the integer is made a float first, which a Python
    integer too large for one refuses. *)
Definition arith (op_int : Z -> Z -> Z) (op_float : float -> float -> float)
    (sign : string) (a b : pyobj) : result pyobj :=
  match a, b with
  | OInt x, OInt y => Ok (OInt (op_int x y))
  | OInt64 x, OInt64 y => Ok (OInt64 (wrap64 (op_int x y)))
  | OInt64 x, OInt y =>
      if in_int64 y then Ok (OInt64 (wrap64 (op_int x y)))
      else Raise (OverflowError "Python integer out of bounds for int64")
  | OInt x, OInt64 y =>
      if in_int64 x then Ok (OInt64 (wrap64 (op_int x y)))
      else Raise (OverflowError "Python integer out of bounds for int64")
  | OFloat x, OFloat y => Ok (OFloat (op_float x y))
  | OInt x, OFloat y =>
      match float_of_int x with
      | Ok fx => Ok (OFloat (op_float fx y))
      | Raise e => Raise e
      end
  | OFloat x, OInt y =>
      match float_of_int y with
      | Ok fy => Ok (OFloat (op_float x fy))
      | Raise e => Raise e
      end
  | OInt64 x, OFloat y => Ok (OFloat (op_float (to_float x) y))
  | OFloat x, OInt64 y => Ok (OFloat (op_float x (to_float y)))
  | _, _ => Raise (TypeError ("unsupported operand type(s) for " ++ sign))
  end.

(** Python's [a + b]. *)
Definition py_add (a b : pyobj) : result pyobj :=
  match a, b with
  | OStr x, OStr y => Ok (OStr (x ++ y))
  | _, _ => arith Z.add PrimFloat.add "+" a b
  end.

(** Python's [a - b], [abs(a)] and [a > b]. *)
Definition py_sub (a b : pyobj) : result pyobj := arith Z.sub PrimFloat.sub "-" a b.

Definition py_abs (a : pyobj) : result pyobj :=
  match a with
  | OInt x => Ok (OInt (Z.abs x))
  | OInt64 x => Ok (OInt64 (wrap64 (Z.abs x)))
  | OFloat x => Ok (OFloat (PrimFloat.abs x))
  | OStr _ => Raise (TypeError "bad operand type for abs(): 'str'")
  end.

Definition py_gt (a b : pyobj) : result bool :=
  match a, b with
  | OStr x, OStr y => Ok (String.ltb y x)
  | OStr _, _ | _, OStr _ => Raise (TypeError "'>' not supported between str and number")
  | (OInt x | OInt64 x), (OInt y | OInt64 y) => Ok (y <? x)%Z
  | OFloat x, OFloat y => Ok (PrimFloat.ltb y x)
  | OInt x, OFloat y =>
      Ok match float_cmp_int y x with Some Lt => true | _ => false end
  | OFloat x, OInt y =>
      Ok match float_cmp_int x y with Some Gt => true | _ => false end
  | OInt64 x, OFloat y => Ok (PrimFloat.ltb y (to_float x))
  | OFloat x, OInt64 y => Ok (PrimFloat.ltb (to_float y) x)
  end.

(** ** The Date column's cells and the data library *)

Inductive datecell : Type :=
| DBlank
| DText (s : string)
| DNum (z : Z)
| DStamp (day : Z) (ns : Z)
| DDate (day : Z).

(** [.dt.date] at one entry of a column of timestamps.  A timestamp is
    its calendar day (a proleptic ordinal) and the nanoseconds into it,
    [None] is NaT. *)
Definition dt_date (t : option (Z * Z)) : datecell :=
  match t with
  | Some (day, _) => DDate day
  | None => DBlank
  end.

(** The timestamp of a timestamp's date. *)
Definition midnight (t : option (Z * Z)) : option (Z * Z) :=
  match t with
  | Some (day, _) => Some (day, 0%Z)
  | None => None
  end.

(** What is taken as given of the data library.
    - [to_datetime col] is [pd.to_datetime(col, errors='coerce')] with the
      [.dt] accessor on its result: the column of timestamps, or the
      exception raised.  The library reads a cell in the context of its
      column.  Of this only three facts are used: the column keeps its
      length, a blank is read as NaT, and the dates the library has
      produced are read back as those dates.
    - [float_sum xs] is the sum of a column of one or more floats,
      blanks skipped, in the order and with the rounding of the library.
    - [float_round2 f] is [round(f, 2)], [float_str f] is [str(f)] and
      [float_format_comma f] is [format(f, ',')] for a float. *)
Class Library : Type := {
  to_datetime : list datecell -> result (list (option (Z * Z)));
  float_sum : list float -> float;
  float_round2 : float -> float;
  float_str : float -> string;
  float_format_comma : float -> string;
  to_datetime_length :
    forall col ts, to_datetime col = Ok ts -> length ts = length col;
  to_datetime_blank :
    forall col ts (i : nat),
      to_datetime col = Ok ts -> col !! i = Some DBlank -> ts !! i = Some None;
  to_datetime_dates :
    forall col ts,
      to_datetime col = Ok ts -> to_datetime (map dt_date ts) = Ok (map midnight ts)
}.

(** ** Columns and tables

    A data column is typed as the library types it: 64-bit integers,
    floats with NaN for a blank, timestamps with NaT for a blank, or
    Python objects (numbers, text and blanks mixed). *)

Inductive Series : Type :=
| Int64 (xs : list Z)
| Float64 (xs : list float)
| Datetime64 (xs : list (option (Z * Z)))
| Object (xs : list pyobj).

(** The table.  The calculators read the column named Date as dates and
    every other column as numbers, and the table is typed accordingly: the
    Date column holds timestamps, dates, numbers, text and blanks; a date
    inside a column of mixed objects that is summed is outside the model. *)
Record DataFrame : Type := mkDataFrame {
  date_column : option (list datecell);
  data_columns : gmap string Series
}.

(** [pd.DataFrame()]: no column, no row. *)
Definition empty_DataFrame : DataFrame := mkDataFrame None ∅.

(** [df[name]] for a data column and [df['Date']]. *)
Definition getitem (df : DataFrame) (name : string) : result Series :=
  match data_columns df !! name with
  | Some s => Ok s
  | None => Raise (KeyError name)
  end.

Definition getitem_Date (df : DataFrame) : result (list datecell) :=
  match date_column df with
  | Some col => Ok col
  | None => Raise (KeyError "Date")
  end.

(** [df['Date'] = col]. *)
Definition setitem_Date (df : DataFrame) (col : list datecell) : DataFrame :=
  mkDataFrame (Some col) (data_columns df).

(** Boolean indexing: the entries whose mask is true. *)
Fixpoint boolean_index {A : Type} (mask : list bool) (xs : list A) : list A :=
  match mask, xs with
  | b :: mask', x :: xs' =>
      if b then x :: boolean_index mask' xs' else boolean_index mask' xs'
  | _, _ => []
  end.

Definition series_index (mask : list bool) (s : Series) : Series :=
  match s with
  | Int64 xs => Int64 (boolean_index mask xs)
  | Float64 xs => Float64 (boolean_index mask xs)
  | Datetime64 xs => Datetime64 (boolean_index mask xs)
  | Object xs => Object (boolean_index mask xs)
  end.

(** [df[mask]]: the rows whose mask is true, in every column. *)
Definition rows (mask : list bool) (df : DataFrame) : DataFrame :=
  mkDataFrame (boolean_index mask <$> date_column df)
              (series_index mask <$> data_columns df).

(** *** Sums and means (missing values skipped) *)

Definition sum_Z (xs : list Z) : Z := fold_right Z.add 0%Z xs.

(** A missing value: [pd.isna(v)]. *)
Definition is_missing (v : pyobj) : bool :=
  match v with
  | OFloat f => is_nan f
  | _ => false
  end.

(** A column of objects is summed with [+] from its first entry on, a
    blank counting as the integer 0; the empty sum is the integer 0. *)
Definition fill_zero (v : pyobj) : pyobj := if is_missing v then OInt 0 else v.

Definition object_sum (xs : list pyobj) : result pyobj :=
  match map fill_zero xs with
  | [] => Ok (OInt 0)
  | x :: rest =>
      fold_left (fun acc y => match acc with
                              | Ok a => py_add a y
                              | Raise e => Raise e
                              end) rest (Ok x)
  end.

Definition is_text (v : pyobj) : bool :=
  match v with
  | OStr _ => true
  | _ => false
  end.

(** The sum of a column of objects as a float, for its mean: text is
    refused (as the library does from its version 2 on). *)
Definition as_float (v : pyobj) : result float :=
  match v with
  | OInt z => float_of_int z
  | OInt64 z => Ok (to_float z)
  | OFloat f => Ok f
  | OStr _ => Raise (TypeError "Could not convert string to numeric")
  end.

(** The mean of [count] values that add up to [total]: NaN when there is
    no value. *)
Definition float_mean (total : float) (count : nat) : pyobj :=
  match count with
  | O => ONaN
  | S _ => OFloat (total / to_float (Z.of_nat count))
  end.

(** *** Dates *)

(** Whether a Date cell is the calendar day [day]: [cell == day]. *)
Definition date_eq (day : Z) (c : datecell) : bool :=
  match c with
  | DDate d => (d =? day)%Z
  | _ => false
  end.

(** ** The page and the calculators' environment *)

(** What the script writes to the page.  [Error prefix e] is
    [st.error(f"{prefix}{e}")]. *)
Inductive element : Type :=
| Title (text : string)
| Subheader (text : string)
| Error (prefix : string) (e : exn)
| Metric (label : string) (value : pyobj) (delta : option string) (delta_color : string)
| Table (df : DataFrame)
| Notice (text : string).

(** A calculator works on the table object it is handed, which it may
    write to, and on the page. *)
Record Env : Type := mkEnv {
  frame : DataFrame;
  page : list element
}.

Definition get_frame : M Env DataFrame := fun s => (Ok (frame s), s).

Definition set_frame (df : DataFrame) : M Env unit :=
  modify (fun s => mkEnv df (page s)).

Definition st_error (prefix : string) (e : exn) : M Env unit :=
  modify (fun s => mkEnv (frame s) (page s ++ [Error prefix e])).

(** The result of [calculate_metrics]: the dictionary's two entries. *)
Record Metrics : Type := mkMetrics {
  Avg_Minutes_of_Work : pyobj;
  Words_Translated : string
}.

Section Calculators.
Context {lib : Library}.

(** The sum of a column of floats: 0.0 when the column is empty. *)
Definition sum_floats (xs : list float) : float :=
  match xs with
  | [] => 0%float
  | _ :: _ => float_sum xs
  end.

(** [s.sum()].  A column of 64-bit integers is added in 64 bits. *)
Definition series_sum (s : Series) : result pyobj :=
  match s with
  | Int64 xs => Ok (OInt64 (wrap64 (sum_Z xs)))
  | Float64 xs => Ok (OFloat (sum_floats xs))
  | Datetime64 _ => Raise (TypeError "datetime64 does not support sum")
  | Object xs => object_sum xs
  end.

(** [s.mean()]: the sum, taken in floats, over the number of values that
    are not missing.  The mean of timestamps is a timestamp, which the
    one caller hands to [round], where it is refused: the model raises the
    same exception one step earlier. *)
Definition series_mean (s : Series) : result pyobj :=
  match s with
  | Int64 xs => Ok (float_mean (sum_floats (map to_float xs)) (length xs))
  | Float64 xs =>
      Ok (float_mean (sum_floats xs) (length (List.filter (fun f => negb (is_nan f)) xs)))
  | Datetime64 _ => Raise (TypeError "timestamp does not define __round__")
  | Object xs =>
      match object_sum xs with
      | Raise e => Raise e
      | Ok total =>
          match as_float total with
          | Raise e => Raise e
          | Ok f =>
              Ok (float_mean f (length (List.filter (fun v => negb (is_missing v)) xs)))
          end
      end
  end.

(** [round(v, 2)]; NaN stays NaN. *)
Definition py_round2 (v : pyobj) : result pyobj :=
  match v with
  | OInt z => Ok (OInt z)
  | OInt64 z => Ok (OInt64 z)
  | OFloat f => Ok (OFloat (if is_nan f then nan else float_round2 f))
  | OStr _ => Raise (TypeError "str does not define __round__")
  end.

(** [f"{v:,}"]. *)
Definition format_comma (v : pyobj) : result string :=
  match v with
  | OInt z | OInt64 z => Ok (group_thousands z)
  | OFloat f => Ok (float_format_comma f)
  | OStr _ => Raise (ValueError "Cannot specify ',' with 's'.")
  end.

(** [str(v)]. *)
Definition py_str (v : pyobj) : string :=
  match v with
  | OInt z | OInt64 z => decimal z
  | OFloat f => float_str f
  | OStr s => s
  end.

Definition work_column : string := "Minutes of Total Video Work Done (min)".
Definition words_column : string := "Words Translated (nos.)".
Definition minutes_column : string := "Minutes of Video Localized (min) - Paid".
Definition clients_column : string := "Total Number of Clients (nos.) - Platform Users".

Definition calculate_metrics : M Env Metrics :=
  df <- get_frame;;
  work <- lift (getitem df work_column);;
  mean <- lift (series_mean work);;
  avg <- lift (py_round2 mean);;
  words <- lift (getitem df words_column);;
  total <- lift (series_sum words);;
  text <- lift (format_comma total);;
  ret (mkMetrics avg text).

(** [pd.to_datetime(col, errors='coerce').dt.date]. *)
Definition coerce_dates (col : list datecell) : result (list datecell) :=
  match to_datetime col with
  | Ok ts => Ok (map dt_date ts)
  | Raise e => Raise e
  end.

(** [df['Date'] = pd.to_datetime(df['Date'], errors='coerce').dt.date]:
    the table handed in is written to, unless the right-hand side raises. *)
Definition coerce_Date : M Env unit :=
  df <- get_frame;;
  col <- lift (getitem_Date df);;
  dates <- lift (coerce_dates col);;
  set_frame (setitem_Date df dates).

(** [df[df['Date'] == day][name].sum()]. *)
Definition sum_on (day : Z) (name : string) : M Env pyobj :=
  df <- get_frame;;
  col <- lift (getitem_Date df);;
  s <- lift (getitem (rows (map (date_eq day) col) df) name);;
  lift (series_sum s).

(** [now] is the day [datetime.now().date()] reads. *)
Definition get_daily_comparison (now : Z) : M Env (pyobj * pyobj) :=
  try_except
    (coerce_Date;;;
     let today := now in
     let yesterday := (today - 1)%Z in
     today_minutes <- sum_on today minutes_column;;
     yesterday_minutes <- sum_on yesterday minutes_column;;
     ret (today_minutes, yesterday_minutes))
    (fun e =>
       st_error "Error calculating daily comparison: " e;;;
       ret (OInt 0, OInt 0)).

Definition get_clients_on_date (date : Z) : M Env pyobj :=
  try_except
    (coerce_Date;;;
     total_clients <- sum_on date clients_column;;
     ret total_clients)
    (fun e =>
       st_error "Error fetching clients onboarded: " e;;;
       ret (OInt 0)).

End Calculators.

(** ** The loader and its cache *)

Definition EXCEL_FILE : string := "Daily_Metric_Tracking_Sheet (1).xlsx".

(** The body of [load_data].  [disk] is what
    [pd.read_excel(EXCEL_FILE, sheet_name=0)] does at the time of the call:
    the table it reads, or the exception it raises.  The state is the list
    of elements the body writes. *)
Definition load_data_body (disk : result DataFrame) : M (list element) DataFrame :=
  try_except
    (df <- lift disk;;
     ret df)
    (fun e =>
       modify (fun els => (els ++ [Error "Error loading file: " e])%list);;;
       ret empty_DataFrame).

(** An entry of [st.cache_data]: when it was stored, the value the
    function returned and the elements it wrote, which a hit replays. *)
Record CacheEntry : Type := mkCacheEntry {
  stored_at : Z;
  cached_value : DataFrame;
  cached_elements : list element
}.

(** The script's state: the session's table, the loader's cache, the page
    and the number of observers started. *)
Record World : Type := mkWorld {
  session_data : option DataFrame;
  cache : option CacheEntry;
  screen : list element;
  observers : nat
}.

Definition ttl : Z := 60.

(** The entry a call at time [timer] is served from, if any. *)
Definition live (timer : Z) (c : option CacheEntry) : option CacheEntry :=
  match c with
  | Some e => if (timer <? stored_at e + ttl)%Z then Some e else None
  | None => None
  end.

(** [@st.cache_data(ttl=60)] around a function without arguments. *)
Definition cache_data (body : M (list element) DataFrame) (timer : Z) : M World DataFrame :=
  fun w =>
    match live timer (cache w) with
    | Some e =>
        (Ok (cached_value e),
         mkWorld (session_data w) (cache w) (screen w ++ cached_elements e) (observers w))
    | None =>
        match body [] with
        | (Ok v, els) =>
            (Ok v,
             mkWorld (session_data w) (Some (mkCacheEntry timer v els))
                     (screen w ++ els) (observers w))
        | (Raise e, els) =>
            (Raise e, mkWorld (session_data w) (cache w) (screen w ++ els) (observers w))
        end
    end.

Definition load_data (disk : result DataFrame) (timer : Z) : M World DataFrame :=
  cache_data (load_data_body disk) timer.

(** ** The watcher *)

Inductive event_type : Type := Created | Modified | Deleted | Moved.

Record event : Type := mkEvent {
  event_kind : event_type;
  src_path : string
}.

(** [ExcelFileHandler.on_modified]. *)
Definition on_modified {St : Type} (reload_callback : M St unit) (ev : event) : M St unit :=
  if endswith (src_path ev) EXCEL_FILE then reload_callback else ret tt.

(** The handler class overrides [on_modified] alone: the base class sends
    an event to the method of its type, and its other methods do nothing. *)
Definition dispatch {St : Type} (reload_callback : M St unit) (ev : event) : M St unit :=
  match event_kind ev with
  | Modified => on_modified reload_callback ev
  | _ => ret tt
  end.

(** The events of a run, handled in order. *)
Fixpoint dispatch_all {St : Type} (reload_callback : M St unit) (evs : list event) : M St unit :=
  match evs with
  | [] => ret tt
  | ev :: evs' => dispatch reload_callback ev;;; dispatch_all reload_callback evs'
  end.

(** [watch_file]: one more observer, on the working directory.  The
    callback it is handed runs later, in the observer's thread and outside
    any run of the script: what it does there is not part of the model,
    which has the handler's choice of the events that call it. *)
Definition watch_file : M World unit :=
  modify (fun w => mkWorld (session_data w) (cache w) (screen w) (S (observers w))).

(** ** The page *)

Definition st_write (e : element) : M World unit :=
  modify (fun w => mkWorld (session_data w) (cache w) (screen w ++ [e]) (observers w)).

(** A calculator run on the session's table: it is handed the object
    itself, so what it writes to the table stays in the session. *)
Definition on_data {A : Type} (m : M Env A) : M World A :=
  fun w =>
    match session_data w with
    | None => (Raise (KeyError "data"), w)
    | Some df =>
        match m (mkEnv df (screen w)) with
        | (r, e) => (r, mkWorld (Some (frame e)) (cache w) (page e) (observers w))
        end
    end.

Definition set_session_data (df : DataFrame) : M World unit :=
  modify (fun w => mkWorld (Some df) (cache w) (screen w) (observers w)).

Definition up_arrow : string := "⬆️".
Definition down_arrow : string := "⬇️".

Section Page.
Context {lib : Library}.

(** [if 'data' not in st.session_state:
      st.session_state['data'] = load_data()]. *)
Definition init_session (disk : result DataFrame) (timer : Z) : M World unit :=
  fun w => match session_data w with
           | None => (df <- load_data disk timer;; set_session_data df) w
           | Some _ => (Ok tt, w)
           end.

(** [main].  [timer] is the cache's clock, and [now1], [now2] and [now3]
    are the days the three readings of [datetime.now()] give, in the order
    of the calls.  Setting the page's title and layout writes nothing to
    the page. *)
Definition main (disk : result DataFrame) (timer now1 now2 now3 : Z) : M World unit :=
  st_write (Title "📊 Daily Metric Tracking Dashboard");;;
  init_session disk timer;;;
  watch_file;;;
  metrics <- on_data calculate_metrics;;
  minutes <- on_data (get_daily_comparison now1);;
  let today_minutes := fst minutes in
  let yesterday_minutes := snd minutes in
  clients_today <- on_data (get_clients_on_date now2);;
  client_yesterday <- on_data (get_clients_on_date (now3 - 1)%Z);;
  up <- lift (py_gt today_minutes yesterday_minutes);;
  let arrow := if up : bool then up_arrow else down_arrow in
  let delta_color := if up : bool then "normal" else "inverse" in
  st_write (Subheader "Key Metrics");;;
  st_write (Metric "Avg Minutes of Work" (Avg_Minutes_of_Work metrics) None "normal");;;
  st_write (Metric "Total Words Translated" (OStr (Words_Translated metrics)) None "normal");;;
  difference <- lift (py_sub today_minutes yesterday_minutes);;
  magnitude <- lift (py_abs difference);;
  st_write (Metric "Minutes Localized (Paid)"
                   (OStr (py_str yesterday_minutes ++ " min"))
                   (Some (arrow ++ " " ++ py_str magnitude)) delta_color);;;
  st_write (Metric "Total Clients Onboarded" client_yesterday None "normal");;;
  st_write (Subheader "📄 Detailed Data");;;
  data <- on_data get_frame;;
  st_write (Table data);;;
  st_write (Notice "🔄 The dashboard updates automatically when changes are detected in the Excel file.").

End Page.

(** ** A library and tables for the examples

    The library of the examples reads text as an ISO calendar date
    (YYYY-MM-DD) and a number as nanoseconds since 1970, unless the
    column's first entry is text, when a number is no date; it never
    raises.  It adds floats from the first on, rounds by scaling to
    hundredths, and prints a float that is a whole number with one decimal
    place, the only floats the examples print. *)

Definition digit (c : ascii) : option Z :=
  let n := (Z.of_nat (nat_of_ascii c) - 48)%Z in
  if ((0 <=? n) && (n <=? 9))%Z then Some n else None.

Definition is_leap (y : Z) : bool :=
  ((y mod 4 =? 0) && (negb (y mod 100 =? 0) || (y mod 400 =? 0)))%Z.

Definition month_lengths (y : Z) : list Z :=
  [31; if is_leap y then 29 else 28; 31; 30; 31; 30; 31; 31; 30; 31; 30; 31]%Z.

(** [date(y, m, d).toordinal()], when the date exists. *)
Definition toordinal (y m d : Z) : option Z :=
  if ((1 <=? y) && (1 <=? m) && (m <=? 12) && (1 <=? d)
      && (d <=? nth (Z.to_nat (m - 1)) (month_lengths y) 0))%Z
  then Some ((y - 1) * 365 + (y - 1) / 4 - (y - 1) / 100 + (y - 1) / 400
             + sum_Z (firstn (Z.to_nat (m - 1)) (month_lengths y)) + d)%Z
  else None.

Definition parse_iso (s : string) : option (Z * Z) :=
  match list_ascii_of_string s with
  | [y1; y2; y3; y4; dash1; m1; m2; dash2; d1; d2] =>
      if (Ascii.eqb dash1 "-" && Ascii.eqb dash2 "-")%bool then
        match digit y1, digit y2, digit y3, digit y4,
              digit m1, digit m2, digit d1, digit d2 with
        | Some a, Some b, Some c, Some d, Some e, Some f, Some g, Some h =>
            match toordinal (1000 * a + 100 * b + 10 * c + d) (10 * e + f) (10 * g + h) with
            | Some day => Some (day, 0%Z)
            | None => None
            end
        | _, _, _, _, _, _, _, _ => None
        end
      else None
  | _ => None
  end.

Definition NS_PER_DAY : Z := 86400000000000.

(** [date(1970, 1, 1).toordinal()]. *)
Definition EPOCH_ORDINAL : Z := 719163.

(** Whether the first cell of the column that is not blank is text. *)
Definition text_first (col : list datecell) : bool :=
  match List.filter (fun c => match c with DBlank => false | _ => true end) col with
  | DText _ :: _ => true
  | _ => false
  end.

Definition example_stamp (after_text : bool) (c : datecell) : option (Z * Z) :=
  match c with
  | DBlank => None
  | DText s => parse_iso s
  | DNum z =>
      if (negb after_text && in_int64 z)%bool
      then Some (EPOCH_ORDINAL + z / NS_PER_DAY, z mod NS_PER_DAY)%Z
      else None
  | DStamp day ns => Some (day, ns)
  | DDate day => Some (day, 0%Z)
  end.

Definition example_to_datetime (col : list datecell) : result (list (option (Z * Z))) :=
  Ok (map (example_stamp (text_first col)) col).

Definition example_float_sum (xs : list float) : float :=
  fold_left (fun acc x => (acc + (if is_nan x then 0 else x))%float) xs 0%float.

(** The nearest whole float, ties to even. *)
Definition rint (x : float) : float :=
  let big := to_float (2 ^ 52) in
  if (PrimFloat.abs x <? big)%float
  then if (x <? 0)%float then (- ((- x + big) - big))%float else ((x + big) - big)%float
  else x.

Definition example_round2 (x : float) : float := (rint (x * 100) / 100)%float.

(** The integer a float is, when it is one. *)
Definition float_to_Z (f : float) : option Z :=
  match Prim2SF f with
  | S754_zero _ => Some 0%Z
  | S754_finite negative m e =>
      let v := if negative then Z.neg m else Z.pos m in
      if (0 <=? e)%Z then Some (v * 2 ^ e)%Z
      else if (v mod 2 ^ (- e) =? 0)%Z then Some (v / 2 ^ (- e))%Z else None
  | _ => None
  end.

Definition whole_float_text (group : bool) (f : float) : string :=
  match float_to_Z f with
  | Some z => (if group then group_thousands z else decimal z) ++ ".0"
  | None => if is_nan f then "nan" else "(a float that is no whole number)"
  end.

Definition example_library : Library.
Proof.
  refine {| to_datetime := example_to_datetime;
            float_sum := example_float_sum;
            float_round2 := example_round2;
            float_str := whole_float_text false;
            float_format_comma := whole_float_text true |}.
  - intros col ts Hts. injection Hts as <-. apply length_map.
  - intros col ts i Hts. injection Hts as <-.
    generalize (text_first col). intros b. revert i.
    induction col as [|c col IH]; intros [|i]; simpl; try discriminate.
    + intros Hc. injection Hc as ->. reflexivity.
    + apply IH.
  - intros col ts Hts. unfold example_to_datetime. f_equal.
    generalize (text_first (map dt_date ts)). intros b. clear Hts.
    induction ts as [|[[d ns]|] ts IH]; simpl; [reflexivity| |]; rewrite IH; reflexivity.
Defined.

(** 9 March 2024, the day of the examples. *)
Definition march_9 : Z := 738954.

(** The specification's scenario for the word total: two rows, a date and
    a word count each, and no other column. *)
Definition two_rows : DataFrame :=
  mkDataFrame (Some [DStamp march_9 0; DStamp march_9 0])
              {[ words_column := Int64 [100; 50] ]}.

(** A sheet with every column: two rows of the day, one of the day before
    and one whose date is not a date. *)
Definition sheet_dates : list datecell :=
  [DStamp march_9 34200000000000; DText "2024-03-09"; DStamp (march_9 - 1) 0; DText "n/a"].

Definition sheet : DataFrame :=
  mkDataFrame
    (Some sheet_dates)
    (<[ work_column := Int64 [30; 45; 60; 10] ]>
     (<[ words_column := Int64 [1000; 500; 70; 5] ]>
      (<[ minutes_column := Int64 [20; 10; 20; 99] ]>
       {[ clients_column := Float64 [3; 4; 5; nan]%float ]}))).

(** The sheet with its header row alone. *)
Definition header_only : DataFrame :=
  mkDataFrame
    (Some [])
    (<[ work_column := Object [] ]>
     (<[ words_column := Object [] ]>
      (<[ minutes_column := Object [] ]>
       {[ clients_column := Object [] ]}))).

(** The scenario's two rows, with a work-duration column added. *)
Definition two_rows_and_work : DataFrame :=
  mkDataFrame (Some [DStamp march_9 0; DStamp march_9 0])
              (<[ work_column := Int64 [30; 45] ]> {[ words_column := Int64 [100; 50] ]}).

(** A sheet whose localized minutes hold text in a row of yesterday: one
    row of today, two of yesterday. *)
Definition minutes_with_text : DataFrame :=
  mkDataFrame
    (Some [DStamp march_9 0; DStamp (march_9 - 1) 0; DStamp (march_9 - 1) 0])
    {[ minutes_column := Object [OInt 30; OStr "n/a"; OInt 5] ]}.

(** The example sheet with text in the localized minutes of a row of
    today. *)
Definition sheet_with_text_today : DataFrame :=
  mkDataFrame
    (Some sheet_dates)
    (<[ minutes_column := Object [OStr "n/a"; OInt 10; OInt 20; OInt 99] ]>
     (data_columns sheet)).

(** A session that holds the example sheet. *)
Definition sheet_world : World := mkWorld (Some sheet) None [] 0.

(** A session that holds the sheet with text in a row of today. *)
Definition text_today_world : World := mkWorld (Some sheet_with_text_today) None [] 0.

(** A first run: no table in the session, nothing cached. *)
Definition fresh_world : World := mkWorld None None [] 0.

(** A world whose cache holds, since time 0, a header-only table and no
    element. *)
Definition stale_world : World :=
  mkWorld None (Some (mkCacheEntry 0 header_only [])) [] 0.

(** A world whose cache holds, since time 0, the example sheet. *)
Definition warm_world : World :=
  mkWorld None (Some (mkCacheEntry 0 sheet [])) [] 0.

(** A change to another file of the watched directory. *)
Definition other_file_modified : event :=
  mkEvent Modified "./old_Daily_Metric_Tracking_Sheet (1).xlsx".

(** A callback that counts its calls. *)
Definition tick : M nat unit := modify S.

(** The scenario's rows with the word counts typed in as text. *)
Definition words_as_text : DataFrame :=
  mkDataFrame (Some [DStamp march_9 0; DStamp march_9 0])
              (<[ work_column := Int64 [30; 45] ]>
               {[ words_column := Object [OStr "100"; OStr "50"] ]}).

(** ** The vocabulary of the statements *)

(** The entries of a column in the rows whose date is the day [day], the
    rows being dated by the column of timestamps [ts]: a row without a
    timestamp is skipped, whatever the day. *)
Fixpoint entries_on {A : Type} (day : Z) (ts : list (option (Z * Z))) (xs : list A)
    : list A :=
  match ts, xs with
  | Some (d, _) :: ts', x :: xs' =>
      if (d =? day)%Z then x :: entries_on day ts' xs' else entries_on day ts' xs'
  | None :: ts', _ :: xs' => entries_on day ts' xs'
  | _, _ => []
  end.

Definition series_on (day : Z) (ts : list (option (Z * Z))) (s : Series) : Series :=
  match s with
  | Int64 xs => Int64 (entries_on day ts xs)
  | Float64 xs => Float64 (entries_on day ts xs)
  | Datetime64 xs => Datetime64 (entries_on day ts xs)
  | Object xs => Object (entries_on day ts xs)
  end.


(** The Date column of a table as the library reads it. *)
Definition timestamps {lib : Library} (df : DataFrame) : result (list (option (Z * Z))) :=
  match date_column df with
  | Some col => to_datetime col
  | None => Raise (KeyError "Date")
  end.

(** The sum of the column [name] over the rows of the day [day], when the
    table has the two columns, its dates can be read and the sum is
    defined; the exception otherwise. *)
Definition day_sum {lib : Library} (df : DataFrame) (name : string) (day : Z)
    : result pyobj :=
  match timestamps df with
  | Raise e => Raise e
  | Ok ts =>
      match data_columns df !! name with
      | None => Raise (KeyError name)
      | Some s => series_sum (series_on day ts s)
      end
  end.

(** The table once its Date column, if it can be read, holds the dates
    read. *)
Definition coerced {lib : Library} (df : DataFrame) : DataFrame :=
  match timestamps df with
  | Ok ts => setitem_Date df (map dt_date ts)
  | Raise _ => df
  end.

(** What [get_daily_comparison] returns and writes to the page. *)
Definition daily_totals {lib : Library} (df : DataFrame) (now : Z) : pyobj * pyobj :=
  match day_sum df minutes_column now, day_sum df minutes_column (now - 1) with
  | Ok t, Ok y => (t, y)
  | _, _ => (OInt 0, OInt 0)
  end.

Definition daily_errors {lib : Library} (df : DataFrame) (now : Z) : list element :=
  match day_sum df minutes_column now, day_sum df minutes_column (now - 1) with
  | Ok _, Ok _ => []
  | Raise e, _ | Ok _, Raise e => [Error "Error calculating daily comparison: " e]
  end.

(** What [get_clients_on_date] returns and writes to the page. *)
Definition clients_on {lib : Library} (df : DataFrame) (date : Z) : pyobj :=
  match day_sum df clients_column date with
  | Ok v => v
  | Raise _ => OInt 0
  end.

Definition clients_errors {lib : Library} (df : DataFrame) (date : Z) : list element :=
  match day_sum df clients_column date with
  | Ok _ => []
  | Raise e => [Error "Error fetching clients onboarded: " e]
  end.

(** [round(s.mean(), 2)]. *)
Definition rounded_mean {lib : Library} (s : Series) : result pyobj :=
  match series_mean s with
  | Ok mean => py_round2 mean
  | Raise e => Raise e
  end.

(** A column of numbers or objects that has no row. *)
Definition no_rows (s : Series) : bool :=
  match s with
  | Int64 [] | Float64 [] | Object [] => true
  | _ => false
  end.

(** What one run of the loader's body yields: the table it returns and
    the elements it writes. *)
Definition read_outcome (disk : result DataFrame) : DataFrame * list element :=
  match load_data_body disk [] with
  | (Ok v, els) => (v, els)
  | (Raise _, els) => (empty_DataFrame, els)
  end.

(** The table of the session once [main] has made sure there is one, the
    elements that making sure of it writes, and the cache it leaves. *)
Definition session_table (disk : result DataFrame) (timer : Z) (w : World) : DataFrame :=
  match session_data w with
  | Some df => df
  | None =>
      match live timer (cache w) with
      | Some e => cached_value e
      | None => fst (read_outcome disk)
      end
  end.

Definition loaded_elements (disk : result DataFrame) (timer : Z) (w : World)
    : list element :=
  match session_data w with
  | Some _ => []
  | None =>
      match live timer (cache w) with
      | Some e => cached_elements e
      | None => snd (read_outcome disk)
      end
  end.

Definition cache_after (disk : result DataFrame) (timer : Z) (w : World)
    : option CacheEntry :=
  match session_data w with
  | Some _ => cache w
  | None =>
      match live timer (cache w) with
      | Some _ => cache w
      | None => Some (mkCacheEntry timer (fst (read_outcome disk)) (snd (read_outcome disk)))
      end
  end.

(** The page when [main] has written its title and made sure of the
    session's table. *)
Definition started_screen (disk : result DataFrame) (timer : Z) (w : World)
    : list element :=
  (screen w ++ Title "📊 Daily Metric Tracking Dashboard" :: loaded_elements disk timer w)%list.

(** What [main] writes once the calculators have run. *)
Definition key_metrics {lib : Library} (metrics : Metrics) (yesterday_minutes : pyobj)
    (up : bool) (magnitude client_yesterday : pyobj) (data : DataFrame) : list element :=
  [Subheader "Key Metrics";
   Metric "Avg Minutes of Work" (Avg_Minutes_of_Work metrics) None "normal";
   Metric "Total Words Translated" (OStr (Words_Translated metrics)) None "normal";
   Metric "Minutes Localized (Paid)"
          (OStr (py_str yesterday_minutes ++ " min"))
          (Some ((if up then up_arrow else down_arrow) ++ " " ++ py_str magnitude))
          (if up then "normal" else "inverse");
   Metric "Total Clients Onboarded" client_yesterday None "normal";
   Subheader "📄 Detailed Data";
   Table data;
   Notice "🔄 The dashboard updates automatically when changes are detected in the Excel file."].

(** The events that reach the callback. *)
Definition triggers (ev : event) : bool :=
  match event_kind ev with
  | Modified => endswith (src_path ev) EXCEL_FILE
  | _ => false
  end.

Definition not_comma (c : ascii) : bool := negb (Ascii.eqb c ","%char).

(** One step of the sum of a column of objects. *)
Definition sum_step (acc : result pyobj) (y : pyobj) : result pyobj :=
  match acc with
  | Ok a => py_add a y
  | Raise e => Raise e
  end.

(** A sum that met text: it is text or an exception. *)
Definition tainted (r : result pyobj) : bool :=
  match r with
  | Ok (OStr _) | Raise _ => true
  | Ok _ => false
  end.

(** ** The calculators, step by step *)

Section Steps.
Context {lib : Library}.

(** The rows the code keeps for a day, by comparing the coerced dates with
    it, are the rows whose timestamp lies on that day. *)
Lemma boolean_index_dates {A : Type} day ts (xs : list A) :
  boolean_index (map (date_eq day) (map dt_date ts)) xs = entries_on day ts xs.
Proof.
  revert xs. induction ts as [|[[d ns]|] ts IH]; intros [|x xs]; simpl; try reflexivity.
  - destruct (d =? day)%Z; rewrite IH; reflexivity.
  - apply IH.
Qed.

Lemma series_index_dates day ts s :
  series_index (map (date_eq day) (map dt_date ts)) s = series_on day ts s.
Proof. destruct s; simpl; rewrite boolean_index_dates; reflexivity. Qed.

Lemma entries_on_midnight {A : Type} day ts (xs : list A) :
  entries_on day (map midnight ts) xs = entries_on day ts xs.
Proof.
  revert xs. induction ts as [|[[d ns]|] ts IH]; intros [|x xs]; simpl; try reflexivity.
  - destruct (d =? day)%Z; rewrite IH; reflexivity.
  - apply IH.
Qed.

Lemma series_on_midnight day ts s : series_on day (map midnight ts) s = series_on day ts s.
Proof. destruct s; simpl; rewrite entries_on_midnight; reflexivity. Qed.

Lemma dt_date_midnight ts : map dt_date (map midnight ts) = map dt_date ts.
Proof. induction ts as [|[[d ns]|] ts IH]; simpl; congruence. Qed.

Lemma coerce_Date_run w :
  coerce_Date w =
  match timestamps (frame w) with
  | Ok ts => (Ok tt, mkEnv (setitem_Date (frame w) (map dt_date ts)) (page w))
  | Raise e => (Raise e, w)
  end.
Proof.
  unfold coerce_Date, timestamps, bind, get_frame, lift, getitem_Date, coerce_dates,
    set_frame, modify.
  destruct (date_column (frame w)) as [col|]; [|reflexivity].
  destruct (to_datetime col); reflexivity.
Qed.

(** A sum over the rows of a day, taken after the Date column was coerced. *)
Lemma sum_on_coerced day name df ts pg :
  sum_on day name (mkEnv (setitem_Date df (map dt_date ts)) pg) =
  (match data_columns df !! name with
   | Some s => series_sum (series_on day ts s)
   | None => Raise (KeyError name)
   end, mkEnv (setitem_Date df (map dt_date ts)) pg).
Proof.
  unfold sum_on, bind, get_frame, lift, getitem_Date, getitem, rows. simpl.
  rewrite lookup_fmap.
  destruct (data_columns df !! name) as [s|]; simpl; [|reflexivity].
  rewrite series_index_dates.
  destruct (series_sum (series_on day ts s)); reflexivity.
Qed.

Lemma get_clients_on_date_run date w :
  get_clients_on_date date w
  = (Ok (clients_on (frame w) date),
     mkEnv (coerced (frame w)) (page w ++ clients_errors (frame w) date)).
Proof.
  unfold get_clients_on_date, try_except, bind at 1. rewrite coerce_Date_run.
  unfold clients_on, clients_errors, coerced, day_sum.
  destruct (timestamps (frame w)) as [ts|e]; [|reflexivity].
  unfold bind. rewrite sum_on_coerced.
  destruct (data_columns (frame w) !! clients_column) as [s|]; [|reflexivity].
  destruct (series_sum (series_on date ts s)); simpl; rewrite ?app_nil_r; reflexivity.
Qed.

Lemma get_daily_comparison_run now w :
  get_daily_comparison now w
  = (Ok (daily_totals (frame w) now),
     mkEnv (coerced (frame w)) (page w ++ daily_errors (frame w) now)).
Proof.
  unfold get_daily_comparison, try_except, bind at 1. rewrite coerce_Date_run.
  unfold daily_totals, daily_errors, coerced, day_sum.
  destruct (timestamps (frame w)) as [ts|e]; [|reflexivity].
  unfold bind. rewrite sum_on_coerced.
  destruct (data_columns (frame w) !! minutes_column) as [s|] eqn:Hs; [|reflexivity].
  destruct (series_sum (series_on now ts s)); [|reflexivity].
  rewrite sum_on_coerced, Hs.
  destruct (series_sum (series_on (now - 1) ts s)); simpl; rewrite ?app_nil_r; reflexivity.
Qed.

Lemma calculate_metrics_run w :
  calculate_metrics w =
  (match data_columns (frame w) !! work_column with
   | None => Raise (KeyError work_column)
   | Some work =>
       match series_mean work with
       | Raise e => Raise e
       | Ok mean =>
           match py_round2 mean with
           | Raise e => Raise e
           | Ok avg =>
               match data_columns (frame w) !! words_column with
               | None => Raise (KeyError words_column)
               | Some words =>
                   match series_sum words with
                   | Raise e => Raise e
                   | Ok total =>
                       match format_comma total with
                       | Raise e => Raise e
                       | Ok text => Ok (mkMetrics avg text)
                       end
                   end
               end
           end
       end
   end, w).
Proof.
  unfold calculate_metrics, bind, get_frame, lift, getitem, ret.
  destruct (data_columns (frame w) !! work_column) as [work|]; [|reflexivity].
  destruct (series_mean work) as [mean|]; [|reflexivity].
  destruct (py_round2 mean) as [avg|]; [|reflexivity].
  destruct (data_columns (frame w) !! words_column) as [words|]; [|reflexivity].
  destruct (series_sum words) as [total|]; [|reflexivity].
  destruct (format_comma total); reflexivity.
Qed.

(** *** A table that was coerced *)

Lemma timestamps_coerced df ts :
  timestamps df = Ok ts -> timestamps (coerced df) = Ok (map midnight ts).
Proof.
  intros Hts. unfold coerced. rewrite Hts. unfold timestamps in *. simpl.
  destruct (date_column df) as [col|]; [|discriminate Hts].
  exact (to_datetime_dates col ts Hts).
Qed.

Lemma coerced_columns df : data_columns (coerced df) = data_columns df.
Proof. unfold coerced. destruct (timestamps df); reflexivity. Qed.

Lemma coerced_idempotent df : coerced (coerced df) = coerced df.
Proof.
  destruct (timestamps df) as [ts|e] eqn:Hts.
  - unfold coerced at 1. rewrite (timestamps_coerced _ _ Hts).
    unfold coerced. rewrite Hts. unfold setitem_Date. simpl.
    rewrite dt_date_midnight. reflexivity.
  - unfold coerced. rewrite Hts, Hts. reflexivity.
Qed.

Lemma day_sum_coerced df name day : day_sum (coerced df) name day = day_sum df name day.
Proof.
  unfold day_sum. destruct (timestamps df) as [ts|e] eqn:Hts.
  - rewrite (timestamps_coerced _ _ Hts), coerced_columns.
    destruct (data_columns df !! name); [|reflexivity].
    rewrite series_on_midnight. reflexivity.
  - unfold coerced. rewrite Hts, Hts. reflexivity.
Qed.

Lemma daily_totals_coerced df now : daily_totals (coerced df) now = daily_totals df now.
Proof. unfold daily_totals. rewrite !day_sum_coerced. reflexivity. Qed.

Lemma daily_errors_coerced df now : daily_errors (coerced df) now = daily_errors df now.
Proof. unfold daily_errors. rewrite !day_sum_coerced. reflexivity. Qed.

Lemma clients_on_coerced df date : clients_on (coerced df) date = clients_on df date.
Proof. unfold clients_on. rewrite day_sum_coerced. reflexivity. Qed.

Lemma clients_errors_coerced df date :
  clients_errors (coerced df) date = clients_errors df date.
Proof. unfold clients_errors. rewrite day_sum_coerced. reflexivity. Qed.

End Steps.

(** ** Missing columns (C1) *)

Section MissingColumns.
Context {lib : Library}.

(** A table without the work-duration column makes [calculate_metrics]
    raise, whatever else it holds. *)
Lemma calculate_metrics_needs_work_column w :
  data_columns (frame w) !! work_column = None ->
  calculate_metrics w = (Raise (KeyError work_column), w).
Proof. intros Hw. rewrite calculate_metrics_run, Hw. reflexivity. Qed.

(** So does one without the words-translated column, once the mean of the
    work durations is taken. *)
Lemma calculate_metrics_needs_words_column w work mean avg :
  data_columns (frame w) !! work_column = Some work ->
  series_mean work = Ok mean ->
  py_round2 mean = Ok avg ->
  data_columns (frame w) !! words_column = None ->
  calculate_metrics w = (Raise (KeyError words_column), w).
Proof.
  intros Hw Hm Ha Hx. rewrite calculate_metrics_run, Hw, Hm, Ha, Hx. reflexivity.
Qed.

(** C1.  On the table without columns, which is the table [load_data]
    returns when the file cannot be read, [calculate_metrics] raises
    KeyError: it substitutes no value and reports nothing on the page.
    The first run of [main] after a failed load therefore ends in that
    exception, while the two date calculators, on the same table, report
    the error and return 0. *)
Theorem calculate_metrics_raises_on_empty_table :
  (forall pg,
     calculate_metrics (mkEnv empty_DataFrame pg)
     = (Raise (KeyError work_column), mkEnv empty_DataFrame pg))
  /\ (forall e timer now1 now2 now3,
        fst (main (Raise e) timer now1 now2 now3 fresh_world)
        = Raise (KeyError work_column))
  /\ (forall now pg,
        get_daily_comparison now (mkEnv empty_DataFrame pg)
        = (Ok (OInt 0, OInt 0),
           mkEnv empty_DataFrame
                 (pg ++ [Error "Error calculating daily comparison: " (KeyError "Date")])))
  /\ (forall date pg,
        get_clients_on_date date (mkEnv empty_DataFrame pg)
        = (Ok (OInt 0),
           mkEnv empty_DataFrame
                 (pg ++ [Error "Error fetching clients onboarded: " (KeyError "Date")]))).
Proof.
  split; [|split; [|split]].
  - intros pg. apply calculate_metrics_needs_work_column. reflexivity.
  - intros e timer now1 now2 now3. reflexivity.
  - intros now pg. rewrite get_daily_comparison_run. reflexivity.
  - intros date pg. rewrite get_clients_on_date_run. reflexivity.
Qed.

End MissingColumns.

(** ** The table is written to (C4) *)

Section Frame.
Context {lib : Library}.

(** C4, as amended.  [calculate_metrics] leaves the table and the page as
    they were.  The two date calculators leave every data column as it
    was.  What they do to the Date column depends on the library's reading
    of it: when the table has no Date column, or when reading it raises,
    the table is left as it was (and the calculator reports the error and
    returns zero); otherwise the column is overwritten with the dates
    read, row for row.  Both calculators leave the same table, and on that
    table a further call changes nothing. *)
Theorem calculators_write_only_the_Date_column :
  forall (now date : Z) (w : Env),
    snd (calculate_metrics w) = w
    /\ frame (snd (get_daily_comparison now w))
       = match date_column (frame w) with
         | None => frame w
         | Some col =>
             match to_datetime col with
             | Raise _ => frame w
             | Ok ts => mkDataFrame (Some (map dt_date ts)) (data_columns (frame w))
             end
         end
    /\ frame (snd (get_clients_on_date date w)) = frame (snd (get_daily_comparison now w))
    /\ (forall col ts,
          date_column (frame w) = Some col ->
          to_datetime col = Ok ts ->
          length (map dt_date ts) = length col)
    /\ (forall col e,
          date_column (frame w) = Some col ->
          to_datetime col = Raise e ->
          get_daily_comparison now w
          = (Ok (OInt 0, OInt 0),
             mkEnv (frame w) (page w ++ [Error "Error calculating daily comparison: " e]))
          /\ get_clients_on_date date w
             = (Ok (OInt 0),
                mkEnv (frame w) (page w ++ [Error "Error fetching clients onboarded: " e])))
    /\ frame (snd (get_daily_comparison now (snd (get_daily_comparison now w))))
       = frame (snd (get_daily_comparison now w))
    /\ frame (snd (get_clients_on_date date (snd (get_clients_on_date date w))))
       = frame (snd (get_clients_on_date date w)).
Proof.
  intros now date w. split; [|split; [|split; [|split; [|split; [|split]]]]].
  - rewrite calculate_metrics_run. reflexivity.
  - rewrite get_daily_comparison_run. cbn [snd frame]. unfold coerced, timestamps.
    destruct (date_column (frame w)) as [col|]; [|reflexivity].
    destruct (to_datetime col); reflexivity.
  - rewrite get_daily_comparison_run, get_clients_on_date_run. reflexivity.
  - intros col ts _ Hts. rewrite length_map. exact (to_datetime_length col ts Hts).
  - intros col e Hcol He.
    rewrite get_daily_comparison_run, get_clients_on_date_run.
    unfold daily_totals, daily_errors, clients_on, clients_errors, coerced, day_sum,
      timestamps.
    rewrite Hcol, He. split; reflexivity.
  - rewrite !get_daily_comparison_run. cbn [snd frame]. apply coerced_idempotent.
  - rewrite !get_clients_on_date_run. cbn [snd frame]. apply coerced_idempotent.
Qed.

End Frame.

(** C4, counterexample.  On the example sheet [get_clients_on_date]
    replaces the Date column: timestamps and text before the call, dates
    and a blank after it. *)
Lemma get_clients_on_date_rewrites_the_Date_column :
  date_column sheet
  = Some [DStamp march_9 34200000000000; DText "2024-03-09";
          DStamp (march_9 - 1) 0; DText "n/a"]
  /\ date_column (frame (snd (get_clients_on_date (lib := example_library) march_9
                                                  (mkEnv sheet []))))
     = Some [DDate march_9; DDate march_9; DDate (march_9 - 1); DBlank].
Proof. split; reflexivity. Qed.

(** ** The text of an integer *)

Lemma strip_commas_list (l : list ascii) :
  strip_commas (string_of_list_ascii l) = string_of_list_ascii (List.filter not_comma l).
Proof.
  induction l as [|c l IH]; simpl; [reflexivity|].
  unfold not_comma at 1. destruct (Ascii.eqb c ","); simpl; congruence.
Qed.

Lemma filter_keeps_all {A : Type} (f : A -> bool) (x : A) (k : list A) :
  List.filter f (x :: k) = x :: k -> f x = true /\ List.filter f k = k.
Proof.
  simpl. destruct (f x); intros Hk.
  - injection Hk as Hk. split; [reflexivity | exact Hk].
  - apply (f_equal (@length A)) in Hk.
    pose proof (List.filter_length_le f k) as Hle. simpl in Hk. lia.
Qed.

Lemma filter_kept {A : Type} (f : A -> bool) (x : A) (k : list A) :
  f x = true -> List.filter f (x :: k) = x :: List.filter f k.
Proof. intros Hx. simpl. rewrite Hx. reflexivity. Qed.

Lemma filter_dropped {A : Type} (f : A -> bool) (x : A) (k : list A) :
  f x = false -> List.filter f (x :: k) = List.filter f k.
Proof. intros Hx. simpl. rewrite Hx. reflexivity. Qed.

(** The commas [group_rev] puts in are all it adds. *)
Lemma group_rev_bounded (n : nat) :
  forall l : list ascii,
    (length l <= n)%nat ->
    List.filter not_comma l = l ->
    List.filter not_comma (group_rev l) = l.
Proof.
  induction n as [|n IH]; intros l Hlen Hl.
  - destruct l; [reflexivity | simpl in Hlen; lia].
  - destruct l as [|a [|b [|c [|d rest]]]]; try exact Hl.
    change (group_rev (a :: b :: c :: d :: rest))
      with (a :: b :: c :: ","%char :: group_rev (d :: rest)).
    apply filter_keeps_all in Hl. destruct Hl as [Ha Hl].
    apply filter_keeps_all in Hl. destruct Hl as [Hb Hl].
    apply filter_keeps_all in Hl. destruct Hl as [Hc Hl].
    rewrite !filter_kept by assumption.
    rewrite filter_dropped by reflexivity.
    rewrite (IH (d :: rest)); [reflexivity | simpl in Hlen |- *; lia | exact Hl].
Qed.

Lemma digits_without_comma (d : Decimal.uint) :
  List.filter not_comma (list_ascii_of_string (NilEmpty.string_of_uint d))
  = list_ascii_of_string (NilEmpty.string_of_uint d).
Proof. induction d; simpl; congruence. Qed.

Lemma decimal_without_comma (z : Z) :
  (0 <= z)%Z ->
  List.filter not_comma (list_ascii_of_string (decimal z))
  = list_ascii_of_string (decimal z).
Proof.
  intros Hz. unfold decimal. destruct z as [|p|p]; [reflexivity| |lia].
  simpl. unfold NilZero.string_of_uint.
  destruct (Pos.to_uint p); try reflexivity; apply digits_without_comma.
Qed.

Lemma decimal_negative (z : Z) :
  (z < 0)%Z -> decimal z = String "-" (decimal (Z.abs z)).
Proof. intros Hz. destruct z as [|p|p]; try lia. reflexivity. Qed.

(** Grouping the digits changes no digit: with the commas taken out, the
    text is the integer's own. *)
Lemma strip_commas_group_thousands (z : Z) :
  strip_commas (group_thousands z) = decimal z.
Proof.
  assert (Hbody : strip_commas
            (string_of_list_ascii
               (rev (group_rev (rev (list_ascii_of_string (decimal (Z.abs z)))))))
          = decimal (Z.abs z)).
  { rewrite strip_commas_list, List.filter_rev.
    rewrite (group_rev_bounded (length (rev (list_ascii_of_string (decimal (Z.abs z)))))).
    - rewrite rev_involutive. apply string_of_list_ascii_of_string.
    - lia.
    - rewrite List.filter_rev, decimal_without_comma by lia. reflexivity. }
  unfold group_thousands. destruct (Z.ltb_spec z 0) as [Hneg|Hpos].
  - change ("-" ++ ?s) with (String "-" s). simpl. rewrite Hbody.
    symmetry. apply decimal_negative. exact Hneg.
  - rewrite Hbody. rewrite Z.abs_eq by lia. reflexivity.
Qed.

(** An integer within 64 bits wraps around to itself. *)
Lemma wrap64_small (z : Z) : (- 2 ^ 63 <= z < 2 ^ 63)%Z -> wrap64 z = z.
Proof.
  intros Hz. unfold wrap64.
  change (2 ^ 63)%Z with 9223372036854775808%Z in *.
  change (2 ^ 64)%Z with 18446744073709551616%Z.
  rewrite Z.mod_small; lia.
Qed.

(** ** The two overall metrics (C2, C5) *)

Section Overall.
Context {lib : Library}.

(** C2, as amended.  On a table without rows that has the work-duration
    and the words-translated column, [calculate_metrics] returns NaN as
    the average and the text of zero as the total: "0", or what the float
    zero prints as when the column is one of floats. *)
Theorem metrics_of_a_table_without_rows :
  forall (w : Env) (work words : Series),
    data_columns (frame w) !! work_column = Some work ->
    data_columns (frame w) !! words_column = Some words ->
    no_rows work = true ->
    no_rows words = true ->
    calculate_metrics w
    = (Ok (mkMetrics ONaN match words with
                          | Float64 _ => float_format_comma 0
                          | _ => "0"
                          end), w).
Proof.
  intros w work words Hwork Hwords Hw Hx.
  rewrite calculate_metrics_run, Hwork, Hwords.
  destruct work as [[|]|[|]|[|]|[|]]; try discriminate Hw;
    destruct words as [[|]|[|]|[|]|[|]]; try discriminate Hx; reflexivity.
Qed.

(** C5, as amended.  On a table whose work-duration column has a rounded
    mean and whose words-translated column is one of integers that add up
    to an integer of 64 bits, [calculate_metrics] returns as the total the
    sum of that column with a comma between its groups of three digits;
    its digits are those of the sum. *)
Theorem total_words_is_the_grouped_sum :
  forall (w : Env) (work : Series) (avg : pyobj) (xs : list Z),
    data_columns (frame w) !! work_column = Some work ->
    rounded_mean work = Ok avg ->
    data_columns (frame w) !! words_column = Some (Int64 xs) ->
    (- 2 ^ 63 <= sum_Z xs < 2 ^ 63)%Z ->
    calculate_metrics w = (Ok (mkMetrics avg (group_thousands (sum_Z xs))), w)
    /\ strip_commas (group_thousands (sum_Z xs)) = decimal (sum_Z xs).
Proof.
  intros w work avg xs Hwork Havg Hwords Hrange. split.
  - rewrite calculate_metrics_run, Hwork, Hwords.
    unfold rounded_mean in Havg.
    destruct (series_mean work) as [mean|]; [|discriminate Havg].
    rewrite Havg. cbn [series_sum format_comma]. rewrite (wrap64_small _ Hrange).
    reflexivity.
  - apply strip_commas_group_thousands.
Qed.

End Overall.

(** C2, counterexample.  The sheet with its header row alone has no row;
    its average is NaN, not 0. *)
Lemma average_of_no_rows_is_NaN :
  fst (calculate_metrics (lib := example_library) (mkEnv header_only []))
  = Ok (mkMetrics ONaN "0").
Proof. reflexivity. Qed.

Lemma metrics_of_a_table_without_rows_witness :
  calculate_metrics (lib := example_library) (mkEnv header_only [])
  = (Ok (mkMetrics ONaN "0"), mkEnv header_only []).
Proof.
  exact (metrics_of_a_table_without_rows (lib := example_library)
           (mkEnv header_only []) (Object []) (Object [])
           eq_refl eq_refl eq_refl eq_refl).
Defined.

(** C5, counterexample.  On the scenario's table, which has a date and a
    word count in each row and nothing else, [calculate_metrics] raises
    KeyError for the work-duration column and yields no total. *)
Lemma total_words_of_two_rows_raises :
  fst (calculate_metrics (lib := example_library) (mkEnv two_rows []))
  = Raise (KeyError "Minutes of Total Video Work Done (min)").
Proof. reflexivity. Qed.

Lemma total_words_is_the_grouped_sum_witness :
  calculate_metrics (lib := example_library) (mkEnv two_rows_and_work [])
  = (Ok (mkMetrics (OFloat 37.5) "150"), mkEnv two_rows_and_work [])
  /\ strip_commas "150" = "150".
Proof.
  refine (total_words_is_the_grouped_sum (lib := example_library)
            (mkEnv two_rows_and_work []) (Int64 [30; 45]) (OFloat 37.5) [100; 50]
            _ _ _ _).
  - vm_compute. reflexivity.
  - vm_compute. reflexivity.
  - vm_compute. reflexivity.
  - unfold sum_Z. simpl. lia.
Defined.

(** Beyond 64 bits the sum of a column of integers wraps around, and so
    does the total. *)
Example total_words_wraps_around :
  fst (calculate_metrics (lib := example_library)
         (mkEnv (mkDataFrame None
                   (<[ work_column := Int64 [30; 45] ]>
                    {[ words_column := Int64 [9223372036854775807; 1] ]})) []))
  = Ok (mkMetrics (OFloat 37.5) "-9,223,372,036,854,775,808").
Proof. vm_compute. reflexivity. Qed.

(** ** The loader (C9) *)

Lemma load_data_body_run (disk : result DataFrame) :
  load_data_body disk []
  = match disk with
    | Ok df => (Ok df, [])
    | Raise e => (Ok empty_DataFrame, [Error "Error loading file: " e])
    end.
Proof. destruct disk; reflexivity. Qed.

Lemma load_data_run (disk : result DataFrame) (timer : Z) (w : World) :
  load_data disk timer w
  = match live timer (cache w) with
    | Some e =>
        (Ok (cached_value e),
         mkWorld (session_data w) (cache w) (screen w ++ cached_elements e) (observers w))
    | None =>
        (Ok (fst (read_outcome disk)),
         mkWorld (session_data w)
                 (Some (mkCacheEntry timer (fst (read_outcome disk)) (snd (read_outcome disk))))
                 (screen w ++ snd (read_outcome disk)) (observers w))
    end.
Proof.
  unfold load_data, cache_data, read_outcome. rewrite load_data_body_run.
  destruct (live timer (cache w)); [reflexivity|]. destruct disk; reflexivity.
Qed.

(** [load_data] catches every exception. *)
Lemma load_data_returns (disk : result DataFrame) (timer : Z) (w : World) :
  exists df, fst (load_data disk timer w) = Ok df.
Proof. rewrite load_data_run. destruct (live timer (cache w)); simpl; eauto. Qed.

(** C9, as amended.  Two loads of a file that stays the same return the
    same table and write the same elements, provided that the entry the
    first load is served from, if it is served from the cache, holds what
    the file yields now.  The calculators are functions of the table and
    the day, so their results on the two tables are the same too. *)
Theorem reload_is_idempotent :
  forall (disk : result DataFrame) (t1 t2 : Z) (w : World),
    match live t1 (cache w) with
    | Some e => (cached_value e, cached_elements e) = read_outcome disk
    | None => True
    end ->
    fst (load_data disk t1 w) = Ok (fst (read_outcome disk))
    /\ fst (load_data disk t2 (snd (load_data disk t1 w))) = Ok (fst (read_outcome disk))
    /\ screen (snd (load_data disk t2 (snd (load_data disk t1 w))))
       = (screen w ++ snd (read_outcome disk) ++ snd (read_outcome disk))%list.
Proof.
  intros disk t1 t2 w Hfresh. rewrite !load_data_run.
  destruct (read_outcome disk) as [v els]. simpl.
  destruct (live t1 (cache w)) as [e|] eqn:Hlive.
  - injection Hfresh as Hv Hels. simpl.
    destruct (live t2 (cache w)) as [e'|] eqn:Hlive2; simpl.
    + assert (e' = e) as ->.
      { unfold live in Hlive, Hlive2. destruct (cache w) as [c|]; [|discriminate].
        destruct (t1 <? stored_at c + ttl)%Z; [|discriminate].
        destruct (t2 <? stored_at c + ttl)%Z; [|discriminate]. congruence. }
      rewrite Hv, Hels, <- app_assoc. auto.
    + rewrite Hv, Hels, <- app_assoc. auto.
  - simpl. destruct (t2 <? t1 + ttl)%Z; simpl; rewrite <- app_assoc; auto.
Qed.

Lemma reload_is_idempotent_witness :
  fst (load_data (Ok sheet) 59 warm_world) = Ok sheet
  /\ fst (load_data (Ok sheet) 61 (snd (load_data (Ok sheet) 59 warm_world))) = Ok sheet
  /\ screen (snd (load_data (Ok sheet) 61 (snd (load_data (Ok sheet) 59 warm_world)))) = [].
Proof.
  exact (reload_is_idempotent (Ok sheet) 59 61 warm_world eq_refl).
Defined.

(** C9, counterexample.  The cache holds a table read at time 0 and the
    file has changed since.  With the file left alone from then on, a load
    at time 59 is served the cached table and the next load, at time 61,
    reads the file: the two loads return different tables. *)
Lemma reload_after_expiry_differs :
  fst (load_data (Ok sheet) 59 stale_world) = Ok header_only
  /\ fst (load_data (Ok sheet) 61 (snd (load_data (Ok sheet) 59 stale_world))) = Ok sheet
  /\ date_column header_only = Some []
  /\ date_column sheet
     = Some [DStamp march_9 34200000000000; DText "2024-03-09";
             DStamp (march_9 - 1) 0; DText "n/a"].
Proof. repeat split. Qed.

(** ** The watcher (C8) *)

Lemma endswith_unfold (s suffix : string) :
  endswith s suffix
  = if String.eqb s suffix then true
    else match s with
         | EmptyString => false
         | String _ s' => endswith s' suffix
         end.
Proof. destruct s; reflexivity. Qed.

Lemma endswith_spec (s suffix : string) :
  endswith s suffix = true <-> exists p, s = p ++ suffix.
Proof.
  split.
  - induction s as [|c s IH]; rewrite endswith_unfold.
    + destruct (String.eqb_spec "" suffix) as [<-|]; [|discriminate].
      intros _. exists "". reflexivity.
    + destruct (String.eqb_spec (String c s) suffix) as [<-|Hne].
      * intros _. exists "". reflexivity.
      * intros Hs. destruct (IH Hs) as [p ->]. exists (String c p). reflexivity.
  - intros [p ->]. induction p as [|c p IH]; rewrite endswith_unfold.
    + change ("" ++ suffix) with suffix. rewrite String.eqb_refl. reflexivity.
    + destruct (String.eqb (String c p ++ suffix) suffix); [reflexivity | exact IH].
Qed.

Lemma dispatch_run {St : Type} (cb : M St unit) (ev : event) :
  dispatch cb ev = if triggers ev then cb else ret tt.
Proof. unfold dispatch, triggers, on_modified. destruct (event_kind ev); reflexivity. Qed.

(** C8, as amended.  The callback runs for exactly the events of type
    modified whose path ends with the name of the tracked file, whatever
    precedes the name: once for each, in a run of events. *)
Theorem callback_runs_on_paths_ending_with_the_name :
  (forall ev : event,
     triggers ev = true
     <-> event_kind ev = Modified /\ exists p, src_path ev = p ++ EXCEL_FILE)
  /\ (forall (St : Type) (cb : M St unit) (ev : event),
        dispatch cb ev = if triggers ev then cb else ret tt)
  /\ (forall (evs : list event) (n : nat),
        dispatch_all tick evs n = (Ok tt, (n + length (List.filter triggers evs))%nat)).
Proof.
  split; [|split].
  - intros ev. unfold triggers. rewrite <- endswith_spec.
    destruct (event_kind ev); split; try discriminate; try tauto;
      intros [Hk _]; discriminate Hk.
  - intros St cb ev. apply dispatch_run.
  - induction evs as [|ev evs IH]; intros n; simpl.
    + unfold ret. f_equal. lia.
    + unfold bind. rewrite dispatch_run. destruct (triggers ev); simpl.
      * rewrite IH. f_equal. lia.
      * apply IH.
Qed.

(** C8, counterexample.  A change to a file whose name merely ends with
    the tracked file's name runs the callback, though its path is not the
    tracked file's. *)
Lemma callback_runs_for_another_file :
  String.eqb (src_path other_file_modified) ("./" ++ EXCEL_FILE) = false
  /\ String.eqb (src_path other_file_modified) EXCEL_FILE = false
  /\ dispatch tick other_file_modified 0%nat = (Ok tt, 1%nat).
Proof. repeat split. Qed.

(** ** The run of [main] *)

Lemma bind_unfold {St A B : Type} (m : M St A) (k : A -> M St B) (s : St) :
  bind m k s = match m s with
               | (Ok a, s') => k a s'
               | (Raise e, s') => (Raise e, s')
               end.
Proof. reflexivity. Qed.

Lemma on_data_run {A : Type} (m : M Env A) (w : World) (df : DataFrame) :
  session_data w = Some df ->
  on_data m w
  = (fst (m (mkEnv df (screen w))),
     mkWorld (Some (frame (snd (m (mkEnv df (screen w))))))
             (cache w) (page (snd (m (mkEnv df (screen w))))) (observers w)).
Proof.
  intros Hs. unfold on_data. rewrite Hs.
  destruct (m (mkEnv df (screen w))); reflexivity.
Qed.

(** Making sure of the session's table, once the title is written. *)
Lemma init_session_run disk timer w :
  init_session disk timer
    (mkWorld (session_data w) (cache w)
             (screen w ++ [Title "📊 Daily Metric Tracking Dashboard"]) (observers w))
  = (Ok tt,
     mkWorld (Some (session_table disk timer w)) (cache_after disk timer w)
             (started_screen disk timer w) (observers w)).
Proof.
  unfold init_session, session_table, cache_after, started_screen, loaded_elements.
  cbn [session_data]. destruct (session_data w) as [df|].
  - reflexivity.
  - unfold bind, set_session_data, modify. rewrite load_data_run.
    cbn [cache screen session_data observers].
    destruct (live timer (cache w)); cbn [fst snd cache screen session_data observers];
      rewrite <- app_assoc; reflexivity.
Qed.

Section Run.
Context {lib : Library}.

Lemma calculate_metrics_frame w : snd (calculate_metrics w) = w.
Proof. rewrite calculate_metrics_run. reflexivity. Qed.

(** What [calculate_metrics] returns does not depend on the page. *)
Lemma calculate_metrics_page df pg pg' :
  fst (calculate_metrics (mkEnv df pg)) = fst (calculate_metrics (mkEnv df pg')).
Proof. rewrite !calculate_metrics_run. reflexivity. Qed.

(** [main], step by step: the title, the session's table, the observer,
    the calculators, whose errors come first on the page, and the tiles. *)
Lemma main_run disk timer now1 now2 now3 w :
  main disk timer now1 now2 now3 w
  = let df := session_table disk timer w in
    let scr := started_screen disk timer w in
    let c := cache_after disk timer w in
    let n := S (observers w) in
    match fst (calculate_metrics (mkEnv df scr)) with
    | Raise e => (Raise e, mkWorld (Some df) c scr n)
    | Ok metrics =>
        let pg := (scr ++ daily_errors df now1 ++ clients_errors df now2
                       ++ clients_errors df (now3 - 1))%list in
        let today_minutes := fst (daily_totals df now1) in
        let yesterday_minutes := snd (daily_totals df now1) in
        let out := fun els => mkWorld (Some (coerced df)) c (pg ++ els)%list n in
        match py_gt today_minutes yesterday_minutes with
        | Raise e => (Raise e, mkWorld (Some (coerced df)) c pg n)
        | Ok up =>
            match py_sub today_minutes yesterday_minutes with
            | Raise e =>
                (Raise e, out (firstn 3 (key_metrics metrics yesterday_minutes up ONaN ONaN df)))
            | Ok difference =>
                match py_abs difference with
                | Raise e =>
                    (Raise e,
                     out (firstn 3 (key_metrics metrics yesterday_minutes up ONaN ONaN df)))
                | Ok magnitude =>
                    (Ok tt, out (key_metrics metrics yesterday_minutes up magnitude
                                             (clients_on df (now3 - 1)) (coerced df)))
                end
            end
        end
    end.
Proof.
  cbv zeta. unfold main.
  rewrite bind_unfold. unfold st_write at 1, modify at 1. cbv beta iota.
  rewrite bind_unfold, init_session_run. cbv beta iota.
  rewrite bind_unfold. unfold watch_file at 1, modify at 1. cbv beta iota.
  cbn [session_data cache screen observers].
  set (df := session_table disk timer w). set (scr := started_screen disk timer w).
  set (c := cache_after disk timer w). set (n := S (observers w)).
  rewrite bind_unfold. erewrite on_data_run by reflexivity.
  rewrite calculate_metrics_frame. cbn [frame page session_data cache screen observers].
  destruct (fst (calculate_metrics (mkEnv df scr))) as [metrics|e]; [|reflexivity].
  rewrite bind_unfold. erewrite on_data_run by reflexivity.
  rewrite get_daily_comparison_run.
  cbn [fst snd frame page session_data cache screen observers].
  rewrite bind_unfold. erewrite on_data_run by reflexivity.
  rewrite get_clients_on_date_run.
  cbn [fst snd frame page session_data cache screen observers].
  rewrite coerced_idempotent, clients_errors_coerced.
  rewrite bind_unfold. erewrite on_data_run by reflexivity.
  rewrite get_clients_on_date_run.
  cbn [fst snd frame page session_data cache screen observers].
  rewrite coerced_idempotent, clients_errors_coerced, clients_on_coerced.
  rewrite <- !app_assoc.
  rewrite bind_unfold. unfold lift at 1.
  destruct (py_gt (fst (daily_totals df now1)) (snd (daily_totals df now1))) as [up|e];
    [|reflexivity].
  do 3 (rewrite bind_unfold; unfold st_write at 1, modify at 1; cbv beta iota;
        cbn [session_data screen cache observers]).
  rewrite bind_unfold. unfold lift at 1.
  destruct (py_sub (fst (daily_totals df now1)) (snd (daily_totals df now1)))
    as [difference|e]; [|rewrite <- !app_assoc; reflexivity].
  rewrite bind_unfold. unfold lift at 1.
  destruct (py_abs difference) as [magnitude|e]; [|rewrite <- !app_assoc; reflexivity].
  do 3 (rewrite bind_unfold; unfold st_write at 1, modify at 1; cbv beta iota;
        cbn [session_data screen cache observers]).
  rewrite bind_unfold. erewrite on_data_run by reflexivity.
  unfold get_frame. cbn [fst snd frame page session_data screen cache observers].
  rewrite bind_unfold; unfold st_write at 1, modify at 1; cbv beta iota;
    cbn [session_data screen cache observers].
  unfold st_write, modify. cbn [session_data screen cache observers].
  rewrite <- !app_assoc. reflexivity.
Qed.

(** With a table in the session, [main] starts from it. *)
Lemma with_session disk timer w df :
  session_data w = Some df ->
  session_table disk timer w = df
  /\ started_screen disk timer w
     = (screen w ++ [Title "📊 Daily Metric Tracking Dashboard"])%list
  /\ cache_after disk timer w = cache w.
Proof.
  intros Hs. unfold session_table, started_screen, loaded_elements, cache_after.
  rewrite Hs. auto.
Qed.

(** What every outcome of [main] shares with the world it started in. *)
Lemma main_world disk timer now1 now2 now3 w :
  observers (snd (main disk timer now1 now2 now3 w)) = S (observers w)
  /\ cache (snd (main disk timer now1 now2 now3 w)) = cache_after disk timer w
  /\ exists df, session_data (snd (main disk timer now1 now2 now3 w)) = Some df.
Proof.
  rewrite main_run. cbv zeta.
  destruct (fst (calculate_metrics _)) as [metrics|e]; [|simpl; eauto].
  destruct (py_gt _ _) as [up|e]; [|simpl; eauto].
  destruct (py_sub _ _) as [difference|e]; [|simpl; eauto].
  destruct (py_abs difference) as [magnitude|e]; simpl; eauto.
Qed.

(** ** A failed load (C6) *)

(** C6.  When the session has no table, the cache no live entry and the
    file cannot be read, [load_data] writes the error to the page and
    returns the empty table, which it caches; no call of [load_data]
    raises.  But the run of [main] does not go on to render: on the empty
    table [calculate_metrics] raises KeyError, which nothing catches, and
    the page holds the title and the error and no tile. *)
Theorem failed_load_ends_main_in_KeyError :
  forall (e : exn) (timer now1 now2 now3 : Z) (w : World),
    session_data w = None ->
    live timer (cache w) = None ->
    load_data (Raise e) timer w
    = (Ok empty_DataFrame,
       mkWorld None
               (Some (mkCacheEntry timer empty_DataFrame [Error "Error loading file: " e]))
               (screen w ++ [Error "Error loading file: " e]) (observers w))
    /\ (forall disk timer' w', exists df, fst (load_data disk timer' w') = Ok df)
    /\ main (Raise e) timer now1 now2 now3 w
       = (Raise (KeyError work_column),
          mkWorld (Some empty_DataFrame)
                  (Some (mkCacheEntry timer empty_DataFrame [Error "Error loading file: " e]))
                  (screen w ++ [Title "📊 Daily Metric Tracking Dashboard";
                                Error "Error loading file: " e])
                  (S (observers w))).
Proof.
  intros e timer now1 now2 now3 w Hs Hmiss. split; [|split].
  - rewrite load_data_run, Hmiss, Hs. reflexivity.
  - intros disk timer' w'. apply load_data_returns.
  - rewrite main_run. cbv zeta.
    unfold session_table, started_screen, loaded_elements, cache_after.
    rewrite Hs, Hmiss. reflexivity.
Qed.

(** ** Rows without a date (C7) *)


Lemma boolean_index_nil {A : Type} (mask : list bool) :
  boolean_index mask (@nil A) = [].
Proof. destruct mask as [|[|] mask]; reflexivity. Qed.




End Run.

(** On the example sheet the row whose date is no date holds 99 minutes
    and no client count: the minutes of the day are 20 + 10 and those of
    the day before 20, and the clients of the day are 3 + 4. *)
Example sheet_sums_skip_the_row_without_a_date :
  timestamps (lib := example_library) sheet
  = Ok [Some (march_9, 34200000000000); Some (march_9, 0); Some (march_9 - 1, 0); None]
  /\ fst (get_daily_comparison (lib := example_library) march_9 (mkEnv sheet []))
     = Ok (OInt64 30, OInt64 20)
  /\ fst (get_clients_on_date (lib := example_library) march_9 (mkEnv sheet []))
     = Ok (OFloat 7).
Proof. vm_compute. repeat split. Qed.

Lemma failed_load_ends_main_in_KeyError_witness :
  load_data (Raise (FileNotFoundError EXCEL_FILE)) 0 fresh_world
  = (Ok empty_DataFrame,
     mkWorld None
             (Some (mkCacheEntry 0 empty_DataFrame
                      [Error "Error loading file: " (FileNotFoundError EXCEL_FILE)]))
             [Error "Error loading file: " (FileNotFoundError EXCEL_FILE)] 0)
  /\ (forall disk timer' w', exists df, fst (load_data disk timer' w') = Ok df)
  /\ main (lib := example_library) (Raise (FileNotFoundError EXCEL_FILE)) 0
          march_9 march_9 march_9 fresh_world
     = (Raise (KeyError work_column),
        mkWorld (Some empty_DataFrame)
                (Some (mkCacheEntry 0 empty_DataFrame
                         [Error "Error loading file: " (FileNotFoundError EXCEL_FILE)]))
                [Title "📊 Daily Metric Tracking Dashboard";
                 Error "Error loading file: " (FileNotFoundError EXCEL_FILE)]
                1).
Proof.
  exact (failed_load_ends_main_in_KeyError (lib := example_library)
           (FileNotFoundError EXCEL_FILE) 0 march_9 march_9 march_9 fresh_world
           eq_refl eq_refl).
Defined.

(** ** The comparison of the day with the day before (C3) *)

Section Comparison.
Context {lib : Library}.

Lemma wrap64_abs_difference (a b : Z) :
  (- 2 ^ 63 < a - b < 2 ^ 63)%Z -> wrap64 (Z.abs (wrap64 (a - b))) = Z.abs (a - b).
Proof.
  intros H. rewrite (wrap64_small (a - b)) by lia. apply wrap64_small. lia.
Qed.

(** C3, as amended.  [get_daily_comparison] returns the pair of the sums
    of the localized minutes over the rows of today and of yesterday when
    both are defined, and two zeros otherwise; for a column of integers the
    two sums are those of the integers in the rows of the day, in 64 bits.
    In a run of [main] that completes, the tile of the localized minutes
    shows the direction up exactly when Python's [>] holds of the pair
    returned, and as magnitude the absolute value of their difference.  Of
    two integers, [>] is the order of the integers and the magnitude their
    distance (for sums of columns of 64-bit integers as long as the
    difference is one of 64 bits); of two floats they are the floats' order
    and the absolute value of the floats' difference. *)
Theorem daily_comparison_and_direction :
  (forall (now : Z) (w : Env),
      fst (get_daily_comparison now w)
      = Ok match day_sum (frame w) minutes_column now,
                 day_sum (frame w) minutes_column (now - 1) with
           | Ok t, Ok y => (t, y)
           | _, _ => (OInt 0, OInt 0)
           end)
  /\ (forall (now : Z) (w : Env) (col : list datecell) (ts : list (option (Z * Z)))
             (xs : list Z),
        date_column (frame w) = Some col ->
        to_datetime col = Ok ts ->
        data_columns (frame w) !! minutes_column = Some (Int64 xs) ->
        get_daily_comparison now w
        = (Ok (OInt64 (wrap64 (sum_Z (entries_on now ts xs))),
               OInt64 (wrap64 (sum_Z (entries_on (now - 1) ts xs)))),
           mkEnv (setitem_Date (frame w) (map dt_date ts)) (page w)))
  /\ (forall (disk : result DataFrame) (timer now1 now2 now3 : Z) (w w' : World),
        main disk timer now1 now2 now3 w = (Ok tt, w') ->
        exists (t y : pyobj) (up : bool) (difference magnitude : pyobj),
          (forall pg,
              fst (get_daily_comparison now1 (mkEnv (session_table disk timer w) pg))
              = Ok (t, y))
          /\ py_gt t y = Ok up
          /\ py_sub t y = Ok difference
          /\ py_abs difference = Ok magnitude
          /\ In (Metric "Minutes Localized (Paid)"
                        (OStr (py_str y ++ " min"))
                        (Some ((if up then up_arrow else down_arrow)
                               ++ " " ++ py_str magnitude))
                        (if up then "normal" else "inverse"))
                (screen w')
          /\ (forall a b : Z,
                t = OInt64 a -> y = OInt64 b ->
                up = (b <? a)%Z
                /\ magnitude = OInt64 (wrap64 (Z.abs (wrap64 (a - b))))
                /\ ((- 2 ^ 63 < a - b < 2 ^ 63)%Z -> magnitude = OInt64 (Z.abs (a - b))))
          /\ (forall a b : Z,
                t = OInt a -> y = OInt b ->
                up = (b <? a)%Z /\ magnitude = OInt (Z.abs (a - b)))
          /\ (forall a b : float,
                t = OFloat a -> y = OFloat b ->
                up = (b <? a)%float /\ magnitude = OFloat (PrimFloat.abs (a - b)))).
Proof.
  split; [|split].
  - intros now w. rewrite get_daily_comparison_run. reflexivity.
  - intros now w col ts xs Hcol Hts Hxs. rewrite get_daily_comparison_run.
    unfold daily_totals, daily_errors, day_sum, coerced, timestamps.
    rewrite Hcol, Hts, Hxs. cbn [series_on series_sum]. rewrite app_nil_r. reflexivity.
  - intros disk timer now1 now2 now3 w w' Hmain.
    rewrite main_run in Hmain. cbv zeta in Hmain.
    destruct (fst (calculate_metrics _)) as [metrics|e]; [|discriminate Hmain].
    set (df := session_table disk timer w) in *.
    destruct (py_gt _ _) as [up|e] eqn:Hup; [|discriminate Hmain].
    destruct (py_sub _ _) as [difference|e] eqn:Hsub; [|discriminate Hmain].
    destruct (py_abs difference) as [magnitude|e] eqn:Habs; [|discriminate Hmain].
    injection Hmain as <-.
    exists (fst (daily_totals df now1)), (snd (daily_totals df now1)), up, difference,
      magnitude.
    split; [|split; [|split; [|split; [|split; [|split; [|split]]]]]].
    + intros pg. rewrite get_daily_comparison_run. cbn [fst frame].
      destruct (daily_totals df now1); reflexivity.
    + exact Hup.
    + exact Hsub.
    + exact Habs.
    + cbn [screen]. apply in_or_app. right. unfold key_metrics. simpl. auto.
    + intros a b Ht Hy. rewrite Ht, Hy in Hup, Hsub.
      injection Hup as <-. injection Hsub as <-. injection Habs as <-.
      split; [reflexivity|]. split; [reflexivity|].
      intros Hr. rewrite (wrap64_abs_difference a b Hr). reflexivity.
    + intros a b Ht Hy. rewrite Ht, Hy in Hup, Hsub.
      injection Hup as <-. injection Hsub as <-. injection Habs as <-.
      split; reflexivity.
    + intros a b Ht Hy. rewrite Ht, Hy in Hup, Hsub.
      injection Hup as <-. injection Hsub as <-. injection Habs as <-.
      split; reflexivity.
Qed.

(** ** The tiles (C10) *)

(** C10, as amended.  In a run of [main] that completes, the tile of the
    localized minutes shows, followed by " min", the second component of
    what [get_daily_comparison] returned: yesterday's sum when the two sums
    are defined, and the handler's zero otherwise.  The tile of the clients
    shows what [get_clients_on_date] returned for the day before the one
    read third.  What it returned for the day read second is shown
    nowhere: whatever that day is, the run completes with the same tiles
    and table, and the only element of the page that depends on the day is
    the error that the call may have reported. *)
Theorem tiles_show_yesterday :
  forall (disk : result DataFrame) (timer now1 now2 now3 : Z) (w w' : World),
    main disk timer now1 now2 now3 w = (Ok tt, w') ->
    exists (metrics : Metrics) (t y c : pyobj) (up : bool) (magnitude : pyobj),
      (forall pg,
          fst (calculate_metrics (mkEnv (session_table disk timer w) pg)) = Ok metrics)
      /\ (forall pg,
            fst (get_daily_comparison now1 (mkEnv (session_table disk timer w) pg))
            = Ok (t, y))
      /\ (forall pg,
            fst (get_clients_on_date (now3 - 1) (mkEnv (session_table disk timer w) pg))
            = Ok c)
      /\ (t, y) = match day_sum (session_table disk timer w) minutes_column now1,
                        day_sum (session_table disk timer w) minutes_column (now1 - 1) with
                  | Ok t0, Ok y0 => (t0, y0)
                  | _, _ => (OInt 0, OInt 0)
                  end
      /\ c = match day_sum (session_table disk timer w) clients_column (now3 - 1) with
             | Ok c0 => c0
             | Raise _ => OInt 0
             end
      /\ (forall now2' el,
            In el (clients_errors (session_table disk timer w) now2') ->
            exists e, el = Error "Error fetching clients onboarded: " e)
      /\ forall now2',
           main disk timer now1 now2' now3 w
           = (Ok tt,
              mkWorld
                (Some (coerced (session_table disk timer w)))
                (cache_after disk timer w)
                (screen w
                 ++ Title "📊 Daily Metric Tracking Dashboard"
                    :: loaded_elements disk timer w
                 ++ daily_errors (session_table disk timer w) now1
                 ++ clients_errors (session_table disk timer w) now2'
                 ++ clients_errors (session_table disk timer w) (now3 - 1)
                 ++ [Subheader "Key Metrics";
                     Metric "Avg Minutes of Work" (Avg_Minutes_of_Work metrics) None "normal";
                     Metric "Total Words Translated" (OStr (Words_Translated metrics))
                            None "normal";
                     Metric "Minutes Localized (Paid)"
                            (OStr (py_str y ++ " min")%string)
                            (Some ((if up then up_arrow else down_arrow)
                                   ++ " " ++ py_str magnitude)%string)
                            (if up then "normal" else "inverse");
                     Metric "Total Clients Onboarded" c None "normal";
                     Subheader "📄 Detailed Data";
                     Table (coerced (session_table disk timer w));
                     Notice "🔄 The dashboard updates automatically when changes are detected in the Excel file."])%list
                (S (observers w))).
Proof.
  intros disk timer now1 now2 now3 w w' Hmain.
  rewrite main_run in Hmain. cbv zeta in Hmain.
  set (df := session_table disk timer w) in *.
  destruct (fst (calculate_metrics _)) as [metrics|e] eqn:Hm; [|discriminate Hmain].
  destruct (py_gt _ _) as [up|e] eqn:Hup; [|discriminate Hmain].
  destruct (py_sub _ _) as [difference|e] eqn:Hsub; [|discriminate Hmain].
  destruct (py_abs difference) as [magnitude|e] eqn:Habs; [|discriminate Hmain].
  exists metrics, (fst (daily_totals df now1)), (snd (daily_totals df now1)),
    (clients_on df (now3 - 1)), up, magnitude.
  split; [|split; [|split; [|split; [|split; [|split]]]]].
  - intros pg. rewrite (calculate_metrics_page df pg (started_screen disk timer w)).
    exact Hm.
  - intros pg. rewrite get_daily_comparison_run. cbn [fst frame].
    destruct (daily_totals df now1); reflexivity.
  - intros pg. rewrite get_clients_on_date_run. reflexivity.
  - unfold daily_totals.
    destruct (day_sum df minutes_column now1); [|reflexivity].
    destruct (day_sum df minutes_column (now1 - 1)); reflexivity.
  - reflexivity.
  - intros now2' el. unfold clients_errors.
    destruct (day_sum df clients_column now2') as [v|e]; simpl; [tauto|].
    intros [<-|[]]. eauto.
  - intros now2'. rewrite main_run. cbv zeta. fold df. rewrite Hm, Hup, Hsub, Habs.
    unfold started_screen, key_metrics. rewrite <- !app_assoc. reflexivity.
Qed.

End Comparison.

(** C3, counterexample.  In this sheet the localized minutes of today's
    one row are 30, and a row of yesterday holds text.  The sum over
    today's rows is 30, but [get_daily_comparison] returns no 30: the
    failure of yesterday's sum makes it return zero for both. *)
Lemma daily_comparison_drops_the_sum_of_today :
  date_column minutes_with_text
  = Some [DStamp march_9 0; DStamp (march_9 - 1) 0; DStamp (march_9 - 1) 0]
  /\ data_columns minutes_with_text !! minutes_column
     = Some (Object [OInt 30; OStr "n/a"; OInt 5])
  /\ day_sum (lib := example_library) minutes_with_text minutes_column march_9
     = Ok (OInt 30)
  /\ fst (get_daily_comparison (lib := example_library) march_9
            (mkEnv minutes_with_text []))
     = Ok (OInt 0, OInt 0).
Proof. vm_compute. repeat split. Qed.

Lemma daily_comparison_and_direction_witness :
  exists (t y : pyobj) (up : bool) (difference magnitude : pyobj),
    (forall pg,
        fst (get_daily_comparison (lib := example_library) march_9
               (mkEnv (session_table (Ok sheet) 0 sheet_world) pg))
        = Ok (t, y))
    /\ py_gt t y = Ok up
    /\ py_sub t y = Ok difference
    /\ py_abs difference = Ok magnitude
    /\ In (Metric "Minutes Localized (Paid)"
                  (OStr (py_str (lib := example_library) y ++ " min"))
                  (Some ((if up then up_arrow else down_arrow) ++ " "
                         ++ py_str (lib := example_library) magnitude))
                  (if up then "normal" else "inverse"))
          (screen (snd (main (lib := example_library) (Ok sheet) 0
                             march_9 march_9 march_9 sheet_world)))
    /\ (forall a b : Z,
          t = OInt64 a -> y = OInt64 b ->
          up = (b <? a)%Z
          /\ magnitude = OInt64 (wrap64 (Z.abs (wrap64 (a - b))))
          /\ ((- 2 ^ 63 < a - b < 2 ^ 63)%Z -> magnitude = OInt64 (Z.abs (a - b))))
    /\ (forall a b : Z,
          t = OInt a -> y = OInt b ->
          up = (b <? a)%Z /\ magnitude = OInt (Z.abs (a - b)))
    /\ (forall a b : float,
          t = OFloat a -> y = OFloat b ->
          up = (b <? a)%float /\ magnitude = OFloat (PrimFloat.abs (a - b))).
Proof.
  refine (proj2 (proj2 (daily_comparison_and_direction (lib := example_library)))
            (Ok sheet) 0 march_9 march_9 march_9 sheet_world
            (snd (main (lib := example_library) (Ok sheet) 0
                       march_9 march_9 march_9 sheet_world)) _).
  vm_compute. reflexivity.
Defined.

(** The scenario of the specification, on the example sheet: 30 minutes
    today and 20 yesterday show as "20 min", up by 10. *)
Example sheet_minutes_tile :
  fst (get_daily_comparison (lib := example_library) march_9 (mkEnv sheet []))
  = Ok (OInt64 30, OInt64 20)
  /\ In (Metric "Minutes Localized (Paid)" (OStr "20 min") (Some (up_arrow ++ " 10")) "normal")
        (screen (snd (main (lib := example_library) (Ok sheet) 0
                           march_9 march_9 march_9 sheet_world))).
Proof. vm_compute. split; [reflexivity|]. do 4 right. left. reflexivity. Qed.

Lemma tiles_show_yesterday_witness :
  exists (metrics : Metrics) (t y c : pyobj) (up : bool) (magnitude : pyobj),
    (forall pg,
        fst (calculate_metrics (lib := example_library)
               (mkEnv (session_table (Ok sheet) 0 sheet_world) pg)) = Ok metrics)
    /\ (forall pg,
          fst (get_daily_comparison (lib := example_library) march_9
                 (mkEnv (session_table (Ok sheet) 0 sheet_world) pg))
          = Ok (t, y))
    /\ (forall pg,
          fst (get_clients_on_date (lib := example_library) (march_9 - 1)
                 (mkEnv (session_table (Ok sheet) 0 sheet_world) pg))
          = Ok c)
    /\ (t, y) = match day_sum (lib := example_library)
                        (session_table (Ok sheet) 0 sheet_world) minutes_column march_9,
                      day_sum (lib := example_library)
                        (session_table (Ok sheet) 0 sheet_world) minutes_column
                        (march_9 - 1) with
                | Ok t0, Ok y0 => (t0, y0)
                | _, _ => (OInt 0, OInt 0)
                end
    /\ c = match day_sum (lib := example_library)
                   (session_table (Ok sheet) 0 sheet_world) clients_column (march_9 - 1) with
           | Ok c0 => c0
           | Raise _ => OInt 0
           end
    /\ (forall now2' el,
          In el (clients_errors (lib := example_library)
                   (session_table (Ok sheet) 0 sheet_world) now2') ->
          exists e, el = Error "Error fetching clients onboarded: " e)
    /\ forall now2',
         main (lib := example_library) (Ok sheet) 0 march_9 now2' march_9 sheet_world
         = (Ok tt,
            mkWorld
              (Some (coerced (lib := example_library) (session_table (Ok sheet) 0 sheet_world)))
              (cache_after (Ok sheet) 0 sheet_world)
              (screen sheet_world
               ++ Title "📊 Daily Metric Tracking Dashboard"
                  :: loaded_elements (Ok sheet) 0 sheet_world
               ++ daily_errors (lib := example_library)
                    (session_table (Ok sheet) 0 sheet_world) march_9
               ++ clients_errors (lib := example_library)
                    (session_table (Ok sheet) 0 sheet_world) now2'
               ++ clients_errors (lib := example_library)
                    (session_table (Ok sheet) 0 sheet_world) (march_9 - 1)
               ++ [Subheader "Key Metrics";
                   Metric "Avg Minutes of Work" (Avg_Minutes_of_Work metrics) None "normal";
                   Metric "Total Words Translated" (OStr (Words_Translated metrics))
                          None "normal";
                   Metric "Minutes Localized (Paid)"
                          (OStr (py_str (lib := example_library) y ++ " min")%string)
                          (Some ((if up then up_arrow else down_arrow)
                                 ++ " " ++ py_str (lib := example_library) magnitude)%string)
                          (if up then "normal" else "inverse");
                   Metric "Total Clients Onboarded" c None "normal";
                   Subheader "📄 Detailed Data";
                   Table (coerced (lib := example_library)
                            (session_table (Ok sheet) 0 sheet_world));
                   Notice "🔄 The dashboard updates automatically when changes are detected in the Excel file."])%list
              (S (observers sheet_world))).
Proof.
  refine (tiles_show_yesterday (lib := example_library)
            (Ok sheet) 0 march_9 march_9 march_9 sheet_world
            (snd (main (lib := example_library) (Ok sheet) 0
                       march_9 march_9 march_9 sheet_world)) _).
  vm_compute. reflexivity.
Defined.

(** C10, counterexample.  In this sheet the localized minutes of the one
    row of yesterday are 20, and a row of today holds text.  The run of
    [main] completes, and its tile of the localized minutes shows 0, not
    yesterday's 20: the failure of today's sum makes
    [get_daily_comparison] return zero for both days. *)
Lemma minutes_tile_shows_zero_for_a_defined_sum :
  day_sum (lib := example_library) sheet_with_text_today minutes_column (march_9 - 1)
  = Ok (OInt 20)
  /\ fst (main (lib := example_library) (Ok sheet) 0 march_9 march_9 march_9
               text_today_world)
     = Ok tt
  /\ In (Metric "Minutes Localized (Paid)" (OStr "0 min") (Some (down_arrow ++ " 0"))
                "inverse")
        (screen (snd (main (lib := example_library) (Ok sheet) 0
                           march_9 march_9 march_9 text_today_world))).
Proof.
  vm_compute. split; [reflexivity|]. split; [reflexivity|].
  do 5 right. left. reflexivity.
Qed.

(** On the example sheet the tiles show 20 minutes and 5 clients, the
    figures of the day before. *)
Example sheet_tiles :
  screen (snd (main (lib := example_library) (Ok sheet) 0
                    march_9 march_9 march_9 sheet_world))
  = [Title "📊 Daily Metric Tracking Dashboard";
     Subheader "Key Metrics";
     Metric "Avg Minutes of Work" (OFloat 36.25) None "normal";
     Metric "Total Words Translated" (OStr "1,575") None "normal";
     Metric "Minutes Localized (Paid)" (OStr "20 min") (Some (up_arrow ++ " 10")) "normal";
     Metric "Total Clients Onboarded" (OFloat 5) None "normal";
     Subheader "📄 Detailed Data";
     Table (setitem_Date sheet [DDate march_9; DDate march_9; DDate (march_9 - 1); DBlank]);
     Notice "🔄 The dashboard updates automatically when changes are detected in the Excel file."].
Proof. vm_compute. reflexivity. Qed.

(** ** Further properties of the code *)

Section Further.
Context {lib : Library}.

(** X1.  The date calculators compose: run after the other one, on the
    table that one has written to, each returns what it returns on the
    table as it was, and writes nothing more to the table. *)
Theorem date_calculators_compose :
  forall (now date : Z) (w : Env),
    fst (get_clients_on_date date (snd (get_daily_comparison now w)))
    = fst (get_clients_on_date date w)
    /\ frame (snd (get_clients_on_date date (snd (get_daily_comparison now w))))
       = frame (snd (get_daily_comparison now w))
    /\ fst (get_daily_comparison now (snd (get_clients_on_date date w)))
       = fst (get_daily_comparison now w)
    /\ frame (snd (get_daily_comparison now (snd (get_clients_on_date date w))))
       = frame (snd (get_clients_on_date date w)).
Proof.
  intros now date w.
  repeat (rewrite ?get_clients_on_date_run, ?get_daily_comparison_run;
          progress cbn [fst snd frame]).
  rewrite clients_on_coerced, daily_totals_coerced, coerced_idempotent.
  repeat split; reflexivity.
Qed.

(** X4.  A failed load is cached like a table: for sixty seconds every
    further load returns the empty table and writes the same error again,
    even when the file can be read by then. *)
Theorem failed_load_is_replayed :
  forall (e : exn) (disk' : result DataFrame) (t t' : Z) (w : World),
    live t (cache w) = None ->
    (t' < t + 60)%Z ->
    load_data disk' t' (snd (load_data (Raise e) t w))
    = (Ok empty_DataFrame,
       mkWorld (session_data w)
               (Some (mkCacheEntry t empty_DataFrame [Error "Error loading file: " e]))
               (screen w ++ [Error "Error loading file: " e]
                         ++ [Error "Error loading file: " e])%list
               (observers w)).
Proof.
  intros e disk' t t' w Hmiss Ht.
  rewrite (load_data_run (Raise e)), Hmiss. simpl.
  rewrite load_data_run. unfold live. simpl. unfold ttl.
  destruct (Z.ltb_spec t' (t + 60)) as [_|Hge]; [|lia].
  simpl. rewrite <- app_assoc. reflexivity.
Qed.

(** X5.  Once the session holds a table, a run of [main] does not call
    the loader: its outcome and its page are the same whatever the file
    holds and whatever the time is, and it leaves the cache as it was. *)
Theorem main_with_a_session_table_ignores_the_file :
  forall (disk disk' : result DataFrame) (timer timer' now1 now2 now3 : Z)
         (w : World) (df : DataFrame),
    session_data w = Some df ->
    main disk timer now1 now2 now3 w = main disk' timer' now1 now2 now3 w
    /\ cache (snd (main disk timer now1 now2 now3 w)) = cache w.
Proof.
  intros disk disk' timer timer' now1 now2 now3 w df Hs. split.
  - rewrite !main_run. cbv zeta.
    destruct (with_session disk timer w df Hs) as (-> & -> & ->).
    destruct (with_session disk' timer' w df Hs) as (-> & -> & ->).
    reflexivity.
  - rewrite (proj1 (proj2 (main_world _ _ _ _ _ _))).
    exact (proj2 (proj2 (with_session disk timer w df Hs))).
Qed.

(** X6.  Every run of [main], whether it completes or raises, starts
    exactly one more observer, and leaves a table in the session. *)
Theorem main_starts_one_more_observer :
  forall (disk : result DataFrame) (timer now1 now2 now3 : Z) (w : World),
    observers (snd (main disk timer now1 now2 now3 w)) = S (observers w)
    /\ exists df, session_data (snd (main disk timer now1 now2 now3 w)) = Some df.
Proof.
  intros disk timer now1 now2 now3 w.
  destruct (main_world disk timer now1 now2 now3 w) as (Ho & _ & Hs).
  split; [exact Ho | exact Hs].
Qed.

(** *** Sums of objects *)

Lemma object_sum_fold xs :
  object_sum xs = match map fill_zero xs with
                  | [] => Ok (OInt 0)
                  | x :: rest => fold_left sum_step rest (Ok x)
                  end.
Proof. reflexivity. Qed.

Lemma fold_tainted rest :
  forall acc, tainted acc = true -> tainted (fold_left sum_step rest acc) = true.
Proof.
  induction rest as [|y rest IH]; simpl; intros acc Hacc; [exact Hacc|].
  apply IH. destruct acc as [[| | |s]|e]; simpl in Hacc; try discriminate;
    [destruct y|]; reflexivity.
Qed.

Lemma fold_meets_text rest :
  existsb is_text rest = true ->
  forall a, tainted (fold_left sum_step rest (Ok a)) = true.
Proof.
  induction rest as [|y rest IH]; simpl; intros Hrest a; [discriminate|].
  destruct (is_text y) eqn:Hy.
  - apply fold_tainted. destruct y; try discriminate Hy. destruct a; reflexivity.
  - simpl in Hrest. destruct (py_add a y) as [a'|e] eqn:Hadd.
    + apply IH. exact Hrest.
    + apply fold_tainted. reflexivity.
Qed.

Lemma is_text_fill_zero xs : existsb is_text (map fill_zero xs) = existsb is_text xs.
Proof.
  induction xs as [|x xs IH]; simpl; [reflexivity|]. rewrite IH.
  destruct x as [z|z|f|s]; try reflexivity.
  unfold fill_zero. simpl. destruct (is_nan f); reflexivity.
Qed.

Lemma object_sum_text xs :
  existsb is_text xs = true -> tainted (object_sum xs) = true.
Proof.
  intros Hxs. rewrite object_sum_fold. rewrite <- is_text_fill_zero in Hxs.
  destruct (map fill_zero xs) as [|x rest]; [discriminate Hxs|].
  simpl in Hxs. destruct (is_text x) eqn:Hx.
  - apply fold_tainted. destruct x; try discriminate Hx. reflexivity.
  - apply fold_meets_text. exact Hxs.
Qed.

(** X8.  When the words-translated column holds text, [calculate_metrics]
    raises, also when every cell is text that reads as a number: the sum
    is a concatenation, which the thousands format refuses, or a type
    error.  The table and the page are left as they were. *)
Theorem calculate_metrics_raises_on_text_words :
  forall (w : Env) (xs : list pyobj),
    data_columns (frame w) !! words_column = Some (Object xs) ->
    existsb is_text xs = true ->
    exists e, calculate_metrics w = (Raise e, w).
Proof.
  intros w xs Hwords Htext. rewrite calculate_metrics_run, Hwords.
  destruct (data_columns (frame w) !! work_column) as [work|]; [|eauto].
  destruct (series_mean work) as [mean|]; [|eauto].
  destruct (py_round2 mean) as [avg|]; [|eauto].
  pose proof (object_sum_text xs Htext) as Ht. simpl.
  destruct (object_sum xs) as [[| | |s]|e]; simpl in Ht; try discriminate; simpl; eauto.
Qed.

Lemma daily_errors_cases df now :
  daily_errors df now = []
  \/ exists e,
      daily_errors df now = [Error "Error calculating daily comparison: " e]
      /\ daily_totals df now = (OInt 0, OInt 0).
Proof.
  unfold daily_errors, daily_totals.
  destruct (day_sum df minutes_column now); [|right; eauto].
  destruct (day_sum df minutes_column (now - 1)); [left; reflexivity | right; eauto].
Qed.

Lemma clients_errors_cases df date :
  clients_errors df date = []
  \/ exists e,
      clients_errors df date = [Error "Error fetching clients onboarded: " e]
      /\ clients_on df date = OInt 0.
Proof.
  unfold clients_errors, clients_on.
  destruct (day_sum df clients_column date); [left; reflexivity | right; eauto].
Qed.

(** X9.  Each date calculator reports all or nothing: either it writes
    nothing to the page, or it writes one error and returns zero (both
    sums zero for the daily comparison, also when only one of them
    failed). *)
Theorem date_calculators_report_all_or_nothing :
  forall (now date : Z) (w : Env),
    (page (snd (get_daily_comparison now w)) = page w
     \/ exists e,
         page (snd (get_daily_comparison now w))
         = (page w ++ [Error "Error calculating daily comparison: " e])%list
         /\ fst (get_daily_comparison now w) = Ok (OInt 0, OInt 0))
    /\ (page (snd (get_clients_on_date date w)) = page w
        \/ exists e,
            page (snd (get_clients_on_date date w))
            = (page w ++ [Error "Error fetching clients onboarded: " e])%list
            /\ fst (get_clients_on_date date w) = Ok (OInt 0)).
Proof.
  intros now date w. split.
  - rewrite get_daily_comparison_run. cbn [fst snd page].
    destruct (daily_errors_cases (frame w) now) as [->|(e & -> & ->)].
    + left. apply app_nil_r.
    + right. eauto.
  - rewrite get_clients_on_date_run. cbn [fst snd page].
    destruct (clients_errors_cases (frame w) date) as [->|(e & -> & ->)].
    + left. apply app_nil_r.
    + right. eauto.
Qed.

End Further.

Lemma failed_load_is_replayed_witness :
  load_data (Ok sheet) 30
            (snd (load_data (Raise (FileNotFoundError EXCEL_FILE)) 0 fresh_world))
  = (Ok empty_DataFrame,
     mkWorld None
             (Some (mkCacheEntry 0 empty_DataFrame
                      [Error "Error loading file: " (FileNotFoundError EXCEL_FILE)]))
             [Error "Error loading file: " (FileNotFoundError EXCEL_FILE);
              Error "Error loading file: " (FileNotFoundError EXCEL_FILE)] 0).
Proof.
  exact (failed_load_is_replayed (FileNotFoundError EXCEL_FILE) (Ok sheet) 0 30
           fresh_world eq_refl eq_refl).
Defined.

Lemma main_with_a_session_table_ignores_the_file_witness :
  main (lib := example_library) (Ok header_only) 0 march_9 march_9 march_9 sheet_world
  = main (lib := example_library) (Raise (FileNotFoundError EXCEL_FILE)) 99
         march_9 march_9 march_9 sheet_world
  /\ cache (snd (main (lib := example_library) (Ok header_only) 0
                      march_9 march_9 march_9 sheet_world))
     = cache sheet_world.
Proof.
  exact (main_with_a_session_table_ignores_the_file (lib := example_library)
           (Ok header_only) (Raise (FileNotFoundError EXCEL_FILE)) 0 99
           march_9 march_9 march_9 sheet_world sheet eq_refl).
Defined.

Lemma calculate_metrics_raises_on_text_words_witness :
  exists e,
    calculate_metrics (lib := example_library) (mkEnv words_as_text [])
    = (Raise e, mkEnv words_as_text []).
Proof.
  exact (calculate_metrics_raises_on_text_words (lib := example_library)
           (mkEnv words_as_text []) [OStr "100"; OStr "50"] eq_refl eq_refl).
Defined.
